(** * Paperwise AI backend (ai-backend/main.py)

    A shallow embedding of the retrieval-augmented question-answering
    service: document parsing, retrieval from the vector store, prompt
    construction and answer generation, and the HTTP handlers built on them.

    Conventions of the embedding.
    - A Python [str] is a [string]; its characters are the code points below
      256.
    - A Python [int] is a [Z] (or a [nat] where it is an index or a length),
      a Python [float] is a primitive binary64 [float].
    - [raise]/[try]/[except] are the [result] monad; everything the source
      catches with [except Exception] is an [exn].
    - The external collaborators (the PDF and DOCX readers, the text
      splitter, the vector store, the generative model) are parameters.
    - [print] is not modelled. The statements that follow the final
      [return] or [raise] of [parse_pdf], [retrieve_context] and
      [generate_rag_response] in the source (older bodies of the same
      functions) are never executed and have no counterpart here. *)

From Stdlib Require Import ZArith String Ascii Floats Sorted Permutation Lia.
From stdpp Require Import base gmap strings list pretty.

Local Open Scope Z_scope.

(** ** Exceptions *)

(** [HTTPException(status_code, detail)] of FastAPI, and any other instance of
    [Exception], of which only [str(e)] is ever used. *)
Inductive exn : Type :=
  | HTTPException (status_code : Z) (detail : string)
  | Exception (msg : string).

(** [str(e)], as interpolated by [f"...{e}"]. Starlette prints an
    [HTTPException] as its status code, a colon and its detail. *)
Definition exn_str (e : exn) : string :=
  match e with
  | HTTPException status_code detail => pretty status_code +:+ ": " +:+ detail
  | Exception msg => msg
  end.

Inductive result (A : Type) : Type :=
  | Ok (a : A)
  | Raise (e : exn).
Arguments Ok {A} a.
Arguments Raise {A} e.

#[global] Instance result_ret : MRet result := fun A a => Ok a.

#[global] Instance result_bind : MBind result := fun A B k m =>
  match m with
  | Ok a => k a
  | Raise e => Raise e
  end.

(** [try: body  except Exception as e: handler e] *)
Definition try_except {A : Type} (body : result A) (handler : exn -> result A)
  : result A :=
  match body with
  | Ok a => Ok a
  | Raise e => handler e
  end.

(** The status code the client sees: 200 for a returned body, the code of an
    [HTTPException], and 500 for any other exception that leaves a handler.
    A returned body is taken to be one the framework can encode: a body
    that holds a NaN or an infinite float fails in the JSON encoder, after
    the handler has returned, and is not covered here. *)
Definition http_status {A : Type} (r : result A) : Z :=
  match r with
  | Ok _ => 200
  | Raise (HTTPException status_code _) => status_code
  | Raise (Exception _) => 500
  end.

(** ** Python string primitives *)

Module PyStr.

Definition LF : string := String (ascii_of_nat 10) EmptyString.

(** [bool(s)]: a string is true when it is not empty. *)
Definition truthy (s : string) : bool :=
  match s with
  | EmptyString => false
  | String _ _ => true
  end.

(** [str.isspace] on one character: TAB..CR, FS..US, space, NEL and NBSP. *)
Definition isspace (c : ascii) : bool :=
  let n := N_of_ascii c in
  ((9 <=? n) && (n <=? 13) || (28 <=? n) && (n <=? 32)
   || (n =? 133) || (n =? 160))%N.

Fixpoint lstrip (s : string) : string :=
  match s with
  | EmptyString => EmptyString
  | String c s' => if isspace c then lstrip s' else s
  end.

Fixpoint rstrip (s : string) : string :=
  match s with
  | EmptyString => EmptyString
  | String c s' =>
      match rstrip s' with
      | EmptyString => if isspace c then EmptyString else String c EmptyString
      | r => String c r
      end
  end.

(** [s.strip()] *)
Definition strip (s : string) : string := rstrip (lstrip s).

(** [s.split()]: the maximal runs of non-whitespace characters; [word] is
    the run being read. *)
Fixpoint split_from (word : string) (s : string) : list string :=
  match s with
  | EmptyString => if truthy word then [word] else []
  | String c s' =>
      if isspace c
      then (if truthy word then word :: split_from EmptyString s'
            else split_from EmptyString s')
      else split_from (word +:+ String c EmptyString) s'
  end.

Definition split (s : string) : list string := split_from EmptyString s.

(** [sep.join(parts)] *)
Fixpoint join (sep : string) (parts : list string) : string :=
  match parts with
  | [] => EmptyString
  | [p] => p
  | p :: rest => p +:+ sep +:+ join sep rest
  end.

(** [str.lower] on one character: A..Z and the capital letters of Latin-1. *)
Definition lower_char (c : ascii) : ascii :=
  let n := N_of_ascii c in
  if ((65 <=? n) && (n <=? 90)
      || (192 <=? n) && (n <=? 222) && negb (n =? 215))%N
  then ascii_of_N (n + 32) else c.

Fixpoint lower (s : string) : string :=
  match s with
  | EmptyString => EmptyString
  | String c s' => String (lower_char c) (lower s')
  end.

(** [s[:n]] and [s[n:]] for [0 <= n]. *)
Definition slice_to (n : nat) (s : string) : string := String.substring 0 n s.
Definition slice_from (n : nat) (s : string) : string :=
  String.substring n (String.length s - n) s.

(** [s.rfind(c)]: the index of the last occurrence of [c], or -1. *)
Fixpoint rfind_from (c : ascii) (s : string) (i : Z) (found : Z) : Z :=
  match s with
  | EmptyString => found
  | String a s' => rfind_from c s' (i + 1) (if Ascii.eqb a c then i else found)
  end.

Definition rfind (c : ascii) (s : string) : Z := rfind_from c s 0 (-1).

(** A string without whitespace. *)
Fixpoint no_space (s : string) : Prop :=
  match s with
  | EmptyString => True
  | String c s' => isspace c = false /\ no_space s'
  end.

End PyStr.

(** ** [os.path.splitext] (POSIX) *)

Module OsPath.
Import PyStr.

(** The [while filenameIndex < dotIndex] loop of [genericpath._splitext]:
    is there a character other than a dot between the last separator and
    the last dot?  [steps] is [dotIndex - filenameIndex]. *)
Fixpoint has_stem (p : string) (steps : nat) (filenameIndex : nat) : bool :=
  match steps with
  | O => false
  | S steps' =>
      if negb (String.eqb (String.substring filenameIndex 1 p) ".")
      then true
      else has_stem p steps' (S filenameIndex)
  end.

Definition splitext (p : string) : string * string :=
  let sepIndex := rfind "/" p in
  let dotIndex := rfind "." p in
  if (sepIndex <? dotIndex)
     && has_stem p (Z.to_nat (dotIndex - (sepIndex + 1)))
                   (Z.to_nat (sepIndex + 1))
  then (slice_to (Z.to_nat dotIndex) p, slice_from (Z.to_nat dotIndex) p)
  else (p, EmptyString).

End OsPath.

Import PyStr.

(** ** JSON values: the dictionaries the handlers return *)

#[local] Set Warnings "-register-all".

Inductive json : Type :=
  | JStr (s : string)
  | JInt (n : Z)
  | JFloat (x : float)
  | JList (items : list json)
  | JDict (fields : list (string * json)).

(** A response body is a dictionary; its keys are kept in insertion order. *)
Definition body : Type := list (string * json).

(** ** The external collaborators *)

Definition bytes : Type := list Byte.byte.

(** A page of a [PdfReader]: [page.extract_text()] returns the text of the
    page (empty when there is none) or raises. *)
Record Page : Type := { extract_text : result string }.

(** The document libraries, the text splitter and the identifier source. *)
Class DocLibs : Type := {
  (** [PdfReader(io.BytesIO(file_data)).pages] *)
  PdfReader : bytes -> result (list Page);
  (** [[paragraph.text for paragraph in DocxDocument(...).paragraphs]] *)
  DocxDocument : bytes -> result (list string);
  (** [file_data.decode('utf-8')] *)
  decode_utf8 : bytes -> result string;
  (** [text_splitter.split_text] *)
  split_text : string -> list string;
  (** [str(uuid.uuid4())] *)
  uuid4 : string
}.

(** The metadata record stored with a chunk: [{"chunk_index": i}]. *)
Record Metadata : Type := { chunk_index : Z }.

Definition metadata_json (m : Metadata) : json :=
  JDict [("chunk_index", JInt (chunk_index m))].

(** The answer of [collection.query] to one query text: the three parallel
    lists [results['documents'][0]], [results['metadatas'][0]] and
    [results['distances'][0]]. *)
Record QueryResult : Type := {
  documents : list string;
  metadatas : list Metadata;
  distances : list float
}.

(** [CHROMA_CLIENT] as one request sees it. Every operation may raise. *)
Class VectorStore : Type := {
  collection : Type;
  get_collection : string -> result collection;
  get_or_create_collection : string -> result collection;
  (** [collection.count()] *)
  coll_count : collection -> result Z;
  (** [collection.query(query_texts=[q], n_results=n, include=...)] *)
  coll_query : collection -> string -> Z -> result QueryResult;
  (** [collection.add(documents=..., metadatas=..., ids=...)] *)
  coll_add :
    collection -> list string -> list Metadata -> list string -> result unit
}.

(** ** 2. Parsing functions *)

Section Parsing.
Context `{DocLibs}.

Definition parse_docx (file_data : bytes) : result string :=
  try_except
    (paragraphs ← DocxDocument file_data;
     mret (join LF (filter (fun text => truthy (strip text) = true) paragraphs)))
    (fun e => Raise (HTTPException 500 ("DOCX Parsing Error: " +:+ exn_str e))).

(** One iteration of the loop over [enumerate(reader.pages)]: [text] is the
    text accumulated so far. An exception of [extract_text] skips the page.
    The source comments its test [len(page_text.strip()) > 10] with
    "At least 10 characters of real content". *)
Definition parse_pdf_page (page_num : nat) (page : Page) (text : string)
  : string :=
  match extract_text page with
  | Raise page_error => text
  | Ok page_text =>
      if truthy page_text && truthy (strip page_text) then
        let page_text := join " " (split page_text) in
        if (10 <? String.length (strip page_text))%nat then
          text +:+ "Page " +:+ pretty (page_num + 1)%nat +:+ ":" +:+ LF
               +:+ page_text +:+ LF +:+ LF
        else text
      else text
  end.

Fixpoint parse_pdf_pages (page_num : nat) (pages : list Page) (text : string)
  : string :=
  match pages with
  | [] => text
  | page :: rest =>
      parse_pdf_pages (S page_num) rest (parse_pdf_page page_num page text)
  end.

Definition parse_pdf (file_data : bytes) : result string :=
  try_except
    (pages ← PdfReader file_data;
     let text := parse_pdf_pages 0 pages EmptyString in
     if negb (truthy (strip text)) then
       Raise (HTTPException 500
                "PDF appears to be empty or contains no extractable text")
     else mret text)
    (fun e => Raise (HTTPException 500 ("PDF Parsing Error: " +:+ exn_str e))).

Definition parse_txt (file_data : bytes) : result string :=
  decode_utf8 file_data.

End Parsing.

(** ** 3. Chroma insertion logic *)

Section Insertion.
Context `{VectorStore}.

Definition insert_chunks_to_chroma (chunks : list string) (document_id : string)
  : result string :=
  try_except
    (collection ← get_or_create_collection document_id;
     let ids :=
       (fun i : nat => "chunk_" +:+ pretty i) <$> seq 0 (length chunks) in
     let metadatas :=
       (fun i : nat => {| chunk_index := Z.of_nat i |})
         <$> seq 0 (length chunks) in
     _ ← coll_add collection chunks metadatas ids;
     mret document_id)
    (fun e =>
       Raise (HTTPException 500
                ("Database error during indexing: " +:+ exn_str e))).

End Insertion.

(** ** 7. API endpoints: [POST /api/v1/document/index] *)

Record UploadFile : Type := {
  filename : string;
  (** what [await file.read()] returns *)
  file_data : bytes
}.

Section IndexDocument.
Context `{DocLibs} `{VectorStore}.

(** [os.path.splitext(file.filename)[1].lower()] *)
Definition file_extension (file : UploadFile) : string :=
  lower (OsPath.splitext (filename file)).2.

(** Step 1 of the handler: the parser chosen by the extension. *)
Definition parse_upload (file : UploadFile) : result string :=
  let file_extension := file_extension file in
  if String.eqb file_extension ".pdf" then parse_pdf (file_data file)
  else if String.eqb file_extension ".docx" then parse_docx (file_data file)
  else if String.eqb file_extension ".txt" then parse_txt (file_data file)
  else Raise (HTTPException 400
                ("Unsupported file type: " +:+ file_extension)).

Definition index_document (file : UploadFile) : result body :=
  raw_text ← parse_upload file;
  if negb (truthy (strip raw_text)) then
    Raise (HTTPException 422 "Could not extract any meaningful text.")
  else
    let chunks := split_text raw_text in
    let document_id := uuid4 in
    indexed_collection_id ← insert_chunks_to_chroma chunks document_id;
    mret [("status", JStr "success");
          ("document_id", JStr indexed_collection_id);
          ("filename", JStr (filename file));
          ("total_chunks_indexed", JInt (Z.of_nat (length chunks)))].

End IndexDocument.

(** ** 4. Chroma retrieval logic *)

(** [l[i]] on a Python list, for an index that is never negative. *)
Definition index {A : Type} (l : list A) (i : nat) : result A :=
  match l !! i with
  | Some x => Ok x
  | None => Raise (Exception "list index out of range")
  end.

(** An element of the list [retrieve_context] returns. *)
Record ContextItem : Type := {
  content : string;
  metadata : Metadata;
  similarity_score : float
}.

(** A [return] inside a [try] block, against falling out of its end. *)
Inductive flow (R A : Type) : Type :=
  | Return (r : R)
  | Continue (a : A).
Arguments Return {R A} r.
Arguments Continue {R A} a.

Section Retrieval.
Context `{VectorStore}.

(** The loop [for i, content in enumerate(results['documents'][0])] of
    [retrieve_context]; [docs] is what is left of the documents, [i] the
    index of its head. *)
Fixpoint retrieve_context_loop (results : QueryResult) (i : nat)
    (docs : list string) (context_data : list ContextItem)
  : result (list ContextItem) :=
  match docs with
  | [] => mret context_data
  | content :: rest =>
      distance ← index (distances results) i;
      metadata ← index (metadatas results) i;
      retrieve_context_loop results (S i) rest
        (context_data ++
           [{| content := content;
               metadata := metadata;
               similarity_score := (1 - distance / 2)%float |}])
  end.

Definition retrieve_context (query : string) (document_id : string) (k : Z)
  : result (list ContextItem) :=
  opened ← try_except
    (collection ← get_collection document_id;
     collection_count ← coll_count collection;
     if collection_count =? 0 then mret (Return [])
     else mret (Continue (collection, collection_count)))
    (fun e => mret (Return []));
  match opened with
  | Return context_data => mret context_data
  | Continue (collection, collection_count) =>
      try_except
        (results ← coll_query collection query
                     (Z.min k collection_count);
         retrieve_context_loop results 0 (documents results) [])
        (fun e => mret [])
  end.

End Retrieval.

(** ** 6. Multi-document retrieval *)

(** An element of the list [retrieve_context_multiple_docs] returns. *)
Record SourcedContext : Type := {
  sc_content : string;
  sc_metadata : Metadata;
  sc_similarity_score : float;
  sc_document_id : string;
  sc_source : string
}.

(** [l.sort(key=key, reverse=True)]. Python's sort is stable, also when
    reversed: an element moves behind the elements of strictly greater key
    only, and elements of equal key keep their order. The keys sorted in
    this program are never NaN ([retrieved_from_not_nan] below), so that
    [<] orders them totally and this is the one stable sort. *)
Section SortReverse.
Context {A : Type} (key : A -> float).

Fixpoint insert_reverse (x : A) (sorted : list A) : list A :=
  match sorted with
  | [] => [x]
  | y :: rest =>
      if (key x <? key y)%float then y :: insert_reverse x rest
      else x :: sorted
  end.

Definition sort_reverse (l : list A) : list A := foldr insert_reverse [] l.

(** [a] may stand before [b] in a list of non-increasing keys. *)
Definition key_ge (a b : A) : Prop := (key b <=? key a)%float = true.

End SortReverse.

Section MultiRetrieval.
Context `{VectorStore}.

(** The dictionary appended for result [i] of document [doc_id]. *)
Definition sourced (doc_id : string) (i : nat) (content : string)
    (metadata : Metadata) (distance : float) : SourcedContext :=
  {| sc_content := content;
     sc_metadata := metadata;
     sc_similarity_score := (1 - distance)%float;
     sc_document_id := doc_id;
     sc_source := "Document: " +:+ doc_id +:+ " | Chunk: " +:+ pretty i |}.

(** The inner loop over the results of one document. [all_contexts] is
    extended in place, so what was appended before an exception stays. *)
Fixpoint collect_results (doc_id : string) (results : QueryResult) (i : nat)
    (docs : list string) (all_contexts : list SourcedContext)
  : result unit * list SourcedContext :=
  match docs with
  | [] => (mret (), all_contexts)
  | content :: rest =>
      match index (distances results) i with
      | Raise e => (Raise e, all_contexts)
      | Ok distance =>
          if (distance <? 1.5)%float then
            match index (metadatas results) i with
            | Raise e => (Raise e, all_contexts)
            | Ok metadata =>
                collect_results doc_id results (S i) rest
                  (all_contexts ++ [sourced doc_id i content metadata distance])
            end
          else collect_results doc_id results (S i) rest all_contexts
      end
  end.

(** The body of the loop over [document_ids]: the [try] block, whose
    exceptions are printed and dropped. *)
Definition search_document (query : string) (k_per_doc : Z) (doc_id : string)
    (all_contexts : list SourcedContext) : list SourcedContext :=
  match (collection ← get_collection doc_id;
         coll_query collection query k_per_doc) with
  | Raise e => all_contexts
  | Ok results =>
      (collect_results doc_id results 0 (documents results) all_contexts).2
  end.

Definition retrieve_context_multiple_docs (query : string)
    (document_ids : list string) (k_per_doc : Z) : list SourcedContext :=
  let all_contexts :=
    foldl (fun all_contexts doc_id =>
             search_document query k_per_doc doc_id all_contexts)
          [] document_ids in
  take 10 (sort_reverse sc_similarity_score all_contexts).

(** Where an element of the result comes from: [c] is the dictionary built
    for result [i] of the query on the collection of one of the
    [document_ids], and the distance the store reported for that result is
    below 1.5. The five keys of the dictionary are spelled out: the content
    and the metadata of the result, the score [1 - distance], the
    identifier of the document, and the label of the document and the
    chunk. *)
Definition retrieved_from (query : string) (document_ids : list string)
    (k_per_doc : Z) (c : SourcedContext) : Prop :=
  exists doc_id collection results i content metadata distance,
    doc_id ∈ document_ids
    /\ get_collection doc_id = Ok collection
    /\ coll_query collection query k_per_doc = Ok results
    /\ documents results !! i = Some content
    /\ metadatas results !! i = Some metadata
    /\ distances results !! i = Some distance
    /\ (distance <? 1.5)%float = true
    /\ (1.5 <=? distance)%float = false
    /\ sc_content c = content
    /\ sc_metadata c = metadata
    /\ sc_similarity_score c = (1 - distance)%float
    /\ sc_document_id c = doc_id
    /\ sc_source c = "Document: " +:+ doc_id +:+ " | Chunk: " +:+ pretty i.

End MultiRetrieval.

(** ** 5. LLM generation logic *)

(** The hosted generative model. [generate_content calls prompt] is what
    [genai.GenerativeModel('gemini-2.0-flash').generate_content(prompt).text]
    yields, the text or an exception, when [calls] are the prompts submitted
    before. *)
Class GenerativeModel : Type := {
  generate_content : list string -> string -> result string
}.

Section Generation.
Context `{GenerativeModel}.

(** One call of the model. The functions of this section thread the list of
    the prompts submitted so far. *)
Definition call_model (prompt : string) (calls : list string)
  : result string * list string :=
  (generate_content calls prompt, calls ++ [prompt]).

(** The prompt of [generate_rag_response]. *)
Definition rag_prompt (context_text user_question : string) : string :=
  "
    You are a helpful document analysis assistant. Analyze the following document content and answer the user's question.

    DOCUMENT CONTENT:
    "
  +:+ context_text
  +:+ "

    USER QUESTION: "
  +:+ user_question
  +:+ "

    INSTRUCTIONS:
    1. Carefully read and analyze the document content provided
    2. Answer the question based SOLELY on the information in the document content
    3. If the document contains relevant information, provide a comprehensive answer
    4. If the document doesn't directly answer the question but contains related information, share what you can infer
    5. Be helpful and provide as much useful information as possible from the document
    6. Only say you cannot find the answer if the document content is completely irrelevant

    Please provide a helpful answer based on the document content:
    ".

Definition generate_rag_response (context : list ContextItem)
    (user_question : string) (calls : list string)
  : result string * list string :=
  match context with
  | [] =>
      (mret "I could not find relevant context in the document to answer that question.",
       calls)
  | _ :: _ =>
      let context_text := join (LF +:+ "---" +:+ LF) (content <$> context) in
      let prompt := rag_prompt context_text user_question in
      let '(response, calls) := call_model prompt calls in
      (try_except response
         (fun e =>
            mret ("Error: The AI service failed to generate a response: "
                  +:+ exn_str e)),
       calls)
  end.

(** The prompt of [generate_rag_response_with_sources]. *)
Definition sources_prompt (context_text user_question : string) : string :=
  "
    You are an expert document analysis assistant. Answer the question based ONLY on the provided context from multiple documents.
    
    IMPORTANT: 
    - Cite which document each piece of information comes from using the source labels
    - If information comes from multiple documents, mention this
    - If documents contradict each other, point this out
    - Only use information from the provided contexts
    
    CONTEXT FROM MULTIPLE DOCUMENTS:
    "
  +:+ context_text
  +:+ "
    
    QUESTION: "
  +:+ user_question
  +:+ "
    
    Provide a comprehensive answer that synthesizes information from all relevant documents, with clear source attribution.
    ".

(** [for i, ctx in enumerate(contexts): context_text += ...] *)
Fixpoint sources_text (i : nat) (contexts : list SourcedContext)
    (context_text : string) : string :=
  match contexts with
  | [] => context_text
  | ctx :: rest =>
      sources_text (S i) rest
        (context_text +:+ "[Source " +:+ pretty (i + 1)%nat +:+ "]: "
           +:+ sc_content ctx +:+ LF +:+ LF)
  end.

(** [for doc_id, contexts in contexts_by_doc.items(): ...]; the dictionary
    is read in insertion order. *)
Fixpoint documents_text (contexts_by_doc : list (string * list SourcedContext))
    (context_text : string) : string :=
  match contexts_by_doc with
  | [] => context_text
  | (doc_id, contexts) :: rest =>
      documents_text rest
        (sources_text 0 contexts
           (context_text +:+ LF +:+ "--- DOCUMENT: " +:+ doc_id +:+ " ---"
              +:+ LF))
  end.

Definition generate_rag_response_with_sources (context : list SourcedContext)
    (user_question : string)
    (contexts_by_doc : list (string * list SourcedContext))
    (calls : list string) : result string * list string :=
  let context_text := documents_text contexts_by_doc EmptyString in
  let prompt := sources_prompt context_text user_question in
  let '(response, calls) := call_model prompt calls in
  (try_except response
     (fun e => mret ("Error generating response: " +:+ exn_str e)),
   calls).

(** ** Summaries *)

Definition overview_prompt (context_text : string) : string :=
  "
        You are an expert document analysis assistant. Provide a comprehensive overview of the following document.
        
        Focus on:
        - Main topics and themes
        - Key findings or conclusions
        - Overall purpose and scope
        - Important data points or statistics
        
        DOCUMENT CONTENT:
        "
  +:+ context_text
  +:+ "
        
        Provide a concise yet informative summary (3-4 paragraphs). Focus on the most important information that gives a complete picture of the document.
        ".

Definition key_points_prompt (context_text : string) : string :=
  "
        Extract the key points and main ideas from this document. Focus on the most important information.
        
        DOCUMENT CONTENT:
        "
  +:+ context_text
  +:+ "
        
        Provide a bullet-point list of the 5-7 most important points from the document.
        ".

Definition executive_prompt (context_text : string) : string :=
  "
        Create an executive summary of this document suitable for quick understanding by busy professionals.
        
        DOCUMENT CONTENT:
        "
  +:+ context_text
  +:+ "
        
        Provide a very concise summary (2-3 paragraphs) highlighting:
        - Primary objective/purpose
        - Main findings/conclusions
        - Key recommendations or next steps
        ".

Definition detailed_prompt (context_text : string) : string :=
  "
        Provide a detailed, comprehensive analysis of this document covering all major aspects.
        
        DOCUMENT CONTENT:
        "
  +:+ context_text
  +:+ "
        
        Provide an in-depth summary covering:
        1. Introduction and context
        2. Main content and analysis
        3. Key findings and data
        4. Conclusions and implications
        5. Recommendations (if any)
        ".

(** The dictionary [prompts]. *)
Definition summary_prompts (context_text : string) : gmap string string :=
  <["detailed" := detailed_prompt context_text]>
    (<["executive" := executive_prompt context_text]>
       (<["key_points" := key_points_prompt context_text]>
          (<["overview" := overview_prompt context_text]> ∅))).

(** The local [prompt] of [generate_document_summary]:
    [prompts.get(summary_type, prompts["overview"])] over the first 15
    chunks. *)
Definition summary_prompt (chunks : list string) (summary_type : string)
  : string :=
  let context_text := join LF (take 15 chunks) in
  let prompts := summary_prompts context_text in
  default (prompts !!! "overview") (prompts !! summary_type).

Definition generate_document_summary (document_id : string)
    (chunks : list string) (summary_type : string) (calls : list string)
  : result string * list string :=
  let prompt := summary_prompt chunks summary_type in
  let '(response, calls) := call_model prompt calls in
  (try_except response
     (fun e =>
        mret ("Unable to generate " +:+ summary_type
              +:+ " summary at this time.")),
   calls).

End Generation.

(** ** 7. API endpoints: question answering *)


(** The JSON object posted to [/api/v1/qa/ask-multiple], when the value of
    [document_ids] is a list of strings. The other values the key can hold
    are those of [IdsValue] below, with the handler over them. *)
Record AskMultipleRequest : Type := {
  document_ids : option (list string);
  question : option string
}.

(** [contexts_by_doc[doc_id].append(context)], after
    [contexts_by_doc[doc_id] = []] for a new key. *)
Fixpoint append_context (doc_id : string) (context : SourcedContext)
    (contexts_by_doc : list (string * list SourcedContext))
  : list (string * list SourcedContext) :=
  match contexts_by_doc with
  | [] => [(doc_id, [context])]
  | (d, contexts) :: rest =>
      if String.eqb d doc_id then (d, contexts ++ [context]) :: rest
      else (d, contexts) :: append_context doc_id context rest
  end.

Definition group_by_document (context_data : list SourcedContext)
  : list (string * list SourcedContext) :=
  foldl (fun contexts_by_doc context =>
           append_context (sc_document_id context) context contexts_by_doc)
        [] context_data.

(** The list [source_metadata] of [contextual_qa]. *)
Definition source_metadata (context_data : list ContextItem) : list json :=
  (fun c =>
     JDict [("content_preview", JStr (slice_to 150 (content c) +:+ "..."));
            ("source_info", metadata_json (metadata c));
            ("similarity", JFloat (similarity_score c))])
    <$> context_data.

(** The list [source_metadata] of [contextual_qa_multiple]. *)
Definition source_metadata_multiple (context_data : list SourcedContext)
  : list json :=
  (fun c =>
     JDict [("document_id", JStr (sc_document_id c));
            ("content_preview", JStr (slice_to 200 (sc_content c) +:+ "..."));
            ("similarity", JFloat (sc_similarity_score c));
            ("source_info", JStr (sc_source c))])
    <$> context_data.

Section Handlers.
Context `{VectorStore} `{GenerativeModel}.


Definition contextual_qa_multiple (data : AskMultipleRequest)
    (calls : list string) : result body * list string :=
  let document_ids := default [] (document_ids data) in
  let question := default EmptyString (question data) in
  if negb (bool_decide (document_ids ≠ [])) || negb (truthy question) then
    (Raise (HTTPException 400 "Missing document_ids or question."), calls)
  else
    match retrieve_context_multiple_docs question document_ids 3 with
    | [] =>
        (mret [("answer",
                JStr "I could not find relevant context in the selected documents to answer that question.");
               ("sources", JList [])],
         calls)
    | context_data =>
        let contexts_by_doc := group_by_document context_data in
        let '(answer, calls) :=
          generate_rag_response_with_sources
            context_data question contexts_by_doc calls in
        (answer ← answer;
         let source_metadata := source_metadata_multiple context_data in
         mret [("answer", JStr answer)],
         calls)
    end.

End Handlers.

(** ** An in-memory vector store

    The store of the examples below: a collection is the list of its
    entries, [dist query text] is the cosine distance between the embeddings
    of a query and of a stored text, and a query ranks the entries by
    ascending distance. *)

Record Entry : Type := {
  entry_id : string;
  entry_text : string;
  entry_metadata : Metadata
}.

Section MemStore.
Context (dist : string -> string -> float) (db : gmap string (list Entry)).

Definition mem_get_collection (name : string) : result (list Entry) :=
  match db !! name with
  | Some entries => Ok entries
  | None => Raise (Exception ("Collection " +:+ name +:+ " does not exist."))
  end.

Definition mem_query (entries : list Entry) (query : string) (n_results : Z)
  : result QueryResult :=
  if n_results <=? 0 then
    Raise (Exception "Number of requested results cannot be negative, or zero.")
  else
    let nearest :=
      take (Z.to_nat n_results)
        (sort_reverse (fun e => (- dist query (entry_text e))%float) entries) in
    Ok {| documents := entry_text <$> nearest;
          metadatas := entry_metadata <$> nearest;
          distances := (fun e => dist query (entry_text e)) <$> nearest |}.

Definition mem_store : VectorStore :=
  {| collection := list Entry;
     get_collection := mem_get_collection;
     get_or_create_collection := fun name => Ok (default [] (db !! name));
     coll_count := fun entries => Ok (Z.of_nat (length entries));
     coll_query := mem_query;
     coll_add := fun _ _ _ _ => Ok () |}.

End MemStore.

(** ** Stand-ins for the external collaborators

    Concrete libraries, stores and models, on which the functions above can
    be run. *)

(** Document libraries that read the same content out of any bytes, a
    splitter that keeps a text whole, and a constant identifier. *)
Definition fixed_libs (pdf : result (list Page)) (docx : result (list string))
    (txt : result string) : DocLibs :=
  {| PdfReader := fun _ => pdf;
     DocxDocument := fun _ => docx;
     decode_utf8 := fun _ => txt;
     split_text := fun text => [text];
     uuid4 := "7f9c24e8-3b12-4fef-91a0-5d2c6e8b0a41" |}.

Definition page_of (text : string) : Page := {| extract_text := Ok text |}.

(** A distance that tells an exact match from anything else. *)
Definition match_dist (query text : string) : float :=
  if String.eqb query text then 0%float else 1%float.

Definition entry (i : nat) (text : string) : Entry :=
  {| entry_id := "chunk_" +:+ pretty i;
     entry_text := text;
     entry_metadata := {| chunk_index := Z.of_nat i |} |}.

(** A store with the document [doc-1] of three chunks and the empty
    collection [doc-2]. *)
Definition example_db : gmap string (list Entry) :=
  <["doc-1" := [entry 0 "alpha"; entry 1 "beta"; entry 2 "gamma"]]>
    (<["doc-2" := []]> ∅).

Definition example_store : VectorStore := mem_store match_dist example_db.

(** A model whose every call fails with [cause], and a model that answers
    every prompt with [text]. *)
Definition failing_model (cause : string) : GenerativeModel :=
  {| generate_content := fun _ _ => Raise (Exception cause) |}.

Definition constant_model (text : string) : GenerativeModel :=
  {| generate_content := fun _ _ => Ok text |}.

(** A store whose collections open but cannot be read. *)
Definition locked_store : VectorStore :=
  {| collection := string;
     get_collection := fun name => Ok name;
     get_or_create_collection := fun name => Ok name;
     coll_count := fun _ => Raise (Exception "database is locked");
     coll_query := fun _ _ _ => Raise (Exception "database is locked");
     coll_add := fun _ _ _ _ => Raise (Exception "database is locked") |}.

(** ** The rest of the vector store *)

(** The answer of [collection.get()]: the parallel lists
    [results['documents']] and [results['metadatas']]. *)
Record GetResult : Type := {
  got_documents : list string;
  got_metadatas : list Metadata
}.

Class StoreReader `{VectorStore} : Type := {
  (** [collection.get()] *)
  coll_get : collection -> result GetResult;
  (** [CHROMA_CLIENT.list_collections()]: each collection with its [name] *)
  list_collections : result (list (string * collection))
}.

(** [time.time()] *)
Class Clock : Type := { time_time : float }.

(** [try: body  except Exception as e: handler e] around a body that calls
    the model: the calls made before the exception stay made. *)
Definition try_except_calls {A : Type} (body : result A * list string)
    (handler : exn -> result A) : result A * list string :=
  (try_except body.1 handler, body.2).

(** ** Summaries of indexed documents *)

Section SummaryEndpoints.
Context `{VectorStore} `{!StoreReader} `{GenerativeModel}.

(** [POST /api/v1/document/{document_id}/generate-summary] *)
Definition generate_summary_for_document (document_id summary_type : string)
    (calls : list string) : result body * list string :=
  try_except_calls
    (match (collection ← get_collection document_id; coll_get collection) with
     | Raise e => (Raise e, calls)
     | Ok results =>
         match got_documents results with
         | [] =>
             (Raise (HTTPException 404 "Document not found or has no content"),
              calls)
         | chunks =>
             let '(summary, calls) :=
               generate_document_summary document_id chunks summary_type calls in
             (summary ← summary;
              mret [("document_id", JStr document_id);
                    ("ai_summary", JStr summary);
                    ("summary_type", JStr summary_type);
                    ("status", JStr "success")],
              calls)
         end
     end)
    (fun e =>
       Raise (HTTPException 500 ("Error generating summary: " +:+ exn_str e))).

(** [POST /api/v1/document/{document_id}/generate-comprehensive-summaries] *)
Definition generate_comprehensive_summaries (document_id : string)
    (calls : list string) : result body * list string :=
  try_except_calls
    (match (collection ← get_collection document_id; coll_get collection) with
     | Raise e => (Raise e, calls)
     | Ok results =>
         match got_documents results with
         | [] =>
             (Raise (HTTPException 404 "Document not found or has no content"),
              calls)
         | chunks =>
             let '(overview, calls) :=
               generate_document_summary document_id chunks "overview" calls in
             let '(key_points, calls) :=
               generate_document_summary document_id chunks "key_points" calls in
             let '(executive, calls) :=
               generate_document_summary document_id chunks "executive" calls in
             (overview ← overview;
              key_points ← key_points;
              executive ← executive;
              mret [("document_id", JStr document_id);
                    ("summaries",
                     JDict [("overview", JStr overview);
                            ("key_points", JStr key_points);
                            ("executive", JStr executive)]);
                    ("status", JStr "success")],
              calls)
         end
     end)
    (fun e =>
       Raise (HTTPException 500 ("Error generating summaries: " +:+ exn_str e))).

End SummaryEndpoints.

(** ** [POST /api/v1/document/index-with-summary] *)

Section IndexWithSummary.
Context `{DocLibs} `{VectorStore} `{GenerativeModel} `{Clock}.

Definition index_document_with_summary (file : UploadFile)
    (calls : list string) : result body * list string :=
  match parse_upload file with
  | Raise e => (Raise e, calls)
  | Ok raw_text =>
      if negb (truthy (strip raw_text)) then
        (Raise (HTTPException 422 "Could not extract any meaningful text."),
         calls)
      else
        let chunks := split_text raw_text in
        let '(summary, calls) :=
          generate_document_summary "temp_id" chunks "overview" calls in
        (summary ← summary;
         let document_id := uuid4 in
         indexed_collection_id ← insert_chunks_to_chroma chunks document_id;
         mret [("status", JStr "success");
               ("document_id", JStr indexed_collection_id);
               ("filename", JStr (filename file));
               ("total_chunks_indexed", JInt (Z.of_nat (length chunks)));
               ("ai_summary", JStr summary);
               ("file_size", JInt (Z.of_nat (length (file_data file))));
               ("upload_date", JFloat time_time)],
         calls)
  end.

End IndexWithSummary.

(** ** Debug endpoints *)

(** A dictionary of [retrieve_context] as JSON. *)
Definition context_json (c : ContextItem) : json :=
  JDict [("content", JStr (content c));
         ("metadata", metadata_json (metadata c));
         ("similarity_score", JFloat (similarity_score c))].

(** The dictionary every debug endpoint answers with after an exception. *)
Definition debug_error (e : exn) (document_id : string) : body :=
  [("error", JStr (exn_str e)); ("document_id", JStr document_id)].

Section DebugEndpoints.
Context `{VectorStore} `{!StoreReader} `{GenerativeModel}.

(** [GET /api/v1/debug/document/{document_id}] *)
Definition debug_document (document_id : string) : result body :=
  try_except
    (collection ← get_collection document_id;
     results ← coll_get collection;
     mret [("document_id", JStr document_id);
           ("total_chunks", JInt (Z.of_nat (length (got_documents results))));
           ("chunks",
            JList (match got_documents results with
                   | [] => []
                   | documents => JStr <$> take 3 documents
                   end));
           ("metadatas",
            JList (match got_metadatas results with
                   | [] => []
                   | metadatas => metadata_json <$> take 3 metadatas
                   end))])
    (fun e => mret (debug_error e document_id)).

(** [GET /api/v1/debug/search/{document_id}] *)
Definition debug_search (document_id query : string) : result body :=
  try_except
    (context_data ← retrieve_context query document_id 5;
     mret [("query", JStr query);
           ("document_id", JStr document_id);
           ("context_found", JInt (Z.of_nat (length context_data)));
           ("contexts", JList (context_json <$> context_data))])
    (fun e => mret (debug_error e document_id)).

(** The loop of [debug_collections] over the collections. *)
Fixpoint collection_infos (collections : list (string * collection))
    (collection_info : list json) : result (list json) :=
  match collections with
  | [] => mret collection_info
  | (name, collection) :: rest =>
      count ← coll_count collection;
      collection_infos rest
        (collection_info ++
           [JDict [("name", JStr name); ("document_count", JInt count)]])
  end.

(** [GET /api/v1/debug/collections] *)
Definition debug_collections : result body :=
  try_except
    (collections ← list_collections;
     collection_info ← collection_infos collections [];
     mret [("total_collections", JInt (Z.of_nat (length collection_info)));
           ("collections", JList collection_info)])
    (fun e => mret [("error", JStr (exn_str e))]).

(** The prompt [test_prompt] of [debug_retrieval]. *)
Definition test_prompt (query context_text : string) : string :=
  "Based on this document content, answer: " +:+ query +:+ LF +:+ LF
  +:+ "CONTENT:" +:+ LF +:+ context_text.

(** [GET /api/v1/debug/retrieve/{document_id}] *)
Definition debug_retrieval (document_id query : string) (calls : list string)
  : result body * list string :=
  try_except_calls
    (match retrieve_context query document_id 5 with
     | Raise e => (Raise e, calls)
     | Ok [] =>
         (mret [("query", JStr query);
                ("document_id", JStr document_id);
                ("context_found", JInt 0);
                ("error", JStr "No context retrieved")],
          calls)
     | Ok context_data =>
         let context_text :=
           join (LF +:+ "---" +:+ LF) (content <$> context_data) in
         let test_prompt := test_prompt query context_text in
         let '(test_response, calls) := call_model test_prompt calls in
         (llm_answer ← test_response;
          mret [("query", JStr query);
                ("document_id", JStr document_id);
                ("context_found", JInt (Z.of_nat (length context_data)));
                ("context_preview",
                 JStr (if (1000 <? String.length context_text)%nat
                       then slice_to 1000 context_text +:+ "..."
                       else context_text));
                ("llm_answer", JStr llm_answer);
                ("chunks_retrieved",
                 JList ((fun ctx =>
                           JDict [("content_preview",
                                   JStr (slice_to 200 (content ctx) +:+ "..."));
                                  ("similarity",
                                   JFloat (similarity_score ctx))])
                          <$> context_data))],
          calls)
     end)
    (fun e => mret (debug_error e document_id)).

End DebugEndpoints.

(** ** [POST /api/v1/qa/ask-multiple] over any value of [document_ids] *)

(** The value of the key [document_ids] of the posted object: null, a
    boolean, a number, a string, an array of strings or an object, of which
    only the keys matter. *)
Inductive IdsValue : Type :=
  | IdsNull
  | IdsBool (b : bool)
  | IdsInt (n : Z)
  | IdsFloat (x : float)
  | IdsStr (s : string)
  | IdsList (ids : list string)
  | IdsDict (keys : list string).

(** [bool(document_ids)] *)
Definition ids_truthy (document_ids : IdsValue) : bool :=
  match document_ids with
  | IdsNull => false
  | IdsBool b => b
  | IdsInt n => negb (n =? 0)
  | IdsFloat x => negb (x =? 0)%float
  | IdsStr s => truthy s
  | IdsList ids => bool_decide (ids <> [])
  | IdsDict keys => bool_decide (keys <> [])
  end.

(** What [for c in s] runs over: the characters of [s], each a string. *)
Fixpoint characters (s : string) : list string :=
  match s with
  | EmptyString => []
  | String c s' => String c EmptyString :: characters s'
  end.

(** What [for doc_id in document_ids] runs over, or the [TypeError] of a
    value that cannot be iterated. *)
Definition ids_iter (document_ids : IdsValue) : result (list string) :=
  match document_ids with
  | IdsNull => Raise (Exception "'NoneType' object is not iterable")
  | IdsBool _ => Raise (Exception "'bool' object is not iterable")
  | IdsInt _ => Raise (Exception "'int' object is not iterable")
  | IdsFloat _ => Raise (Exception "'float' object is not iterable")
  | IdsStr s => Ok (characters s)
  | IdsList ids => Ok ids
  | IdsDict keys => Ok keys
  end.

(** The posted object: its two keys, [None] for a missing key. *)
Record AskMultipleObject : Type := {
  object_document_ids : option IdsValue;
  object_question : option string
}.

Section HandlersOverValues.
Context `{VectorStore} `{GenerativeModel}.

(** [retrieve_context_multiple_docs] called with any value: the loop over
    [document_ids] is outside every [try] block. *)
Definition retrieve_context_multiple_docs_over (query : string)
    (document_ids : IdsValue) (k_per_doc : Z) : result (list SourcedContext) :=
  ids ← ids_iter document_ids;
  mret (retrieve_context_multiple_docs query ids k_per_doc).

Definition contextual_qa_multiple_object (data : AskMultipleObject)
    (calls : list string) : result body * list string :=
  let document_ids := default (IdsList []) (object_document_ids data) in
  let question := default EmptyString (object_question data) in
  if negb (ids_truthy document_ids) || negb (truthy question) then
    (Raise (HTTPException 400 "Missing document_ids or question."), calls)
  else
    match retrieve_context_multiple_docs_over question document_ids 3 with
    | Raise e => (Raise e, calls)
    | Ok [] =>
        (mret [("answer",
                JStr "I could not find relevant context in the selected documents to answer that question.");
               ("sources", JList [])],
         calls)
    | Ok context_data =>
        let contexts_by_doc := group_by_document context_data in
        let '(answer, calls) :=
          generate_rag_response_with_sources
            context_data question contexts_by_doc calls in
        (answer ← answer;
         let source_metadata := source_metadata_multiple context_data in
         mret [("answer", JStr answer)],
         calls)
    end.

End HandlersOverValues.

(** ** Readings used in the statements below *)

(** [part] occurs in [s]. *)
Definition occurs_in (part s : string) : Prop :=
  exists before after, s = before +:+ part +:+ after.

(** The block [parse_pdf] writes for a page it keeps. *)
Definition page_block (page_num : nat) (normalised : string) : string :=
  "Page " +:+ pretty (page_num + 1)%nat +:+ ":" +:+ LF
  +:+ normalised +:+ LF +:+ LF.

(** The blocks of the pages of a PDF, the first of which has index
    [page_num]: one for each page whose text can be extracted and is longer
    than 10 characters once normalised. *)
Fixpoint page_blocks (page_num : nat) (pages : list Page) : list string :=
  match pages with
  | [] => []
  | page :: rest =>
      match extract_text page with
      | Ok page_text =>
          let normalised := join " " (split page_text) in
          if (10 <? String.length normalised)%nat
          then page_block page_num normalised :: page_blocks (S page_num) rest
          else page_blocks (S page_num) rest
      | Raise _ => page_blocks (S page_num) rest
      end
  end.

(** What [group_by_document] keeps true while it reads the contexts. *)
Definition grouped (context_data : list SourcedContext)
    (contexts_by_doc : list (string * list SourcedContext)) : Prop :=
  NoDup contexts_by_doc.*1
  /\ (forall doc_id contexts,
        (doc_id, contexts) ∈ contexts_by_doc ->
        contexts <> []
        /\ contexts
           = filter (fun c => sc_document_id c = doc_id) context_data)
  /\ (forall c, c ∈ context_data -> sc_document_id c ∈ contexts_by_doc.*1).

(** [entry] is the dictionary [debug_collections] lists for a collection
    and its name: the name and the number [collection.count()] returned. *)
Definition counted_as `{VectorStore} (named : string * collection)
    (entry : json) : Prop :=
  exists count,
    coll_count named.2 = Ok count
    /\ entry = JDict [("name", JStr named.1); ("document_count", JInt count)].

(** The contexts that pass the distance cutoff, over all the documents, in
    the order in which they are found: [all_contexts] before it is sorted. *)
Definition accepted_contexts `{VectorStore} (query : string)
    (document_ids : list string) (k_per_doc : Z) : list SourcedContext :=
  foldl (fun all_contexts doc_id =>
           search_document query k_per_doc doc_id all_contexts)
        [] document_ids.

(** ** More stand-ins *)

Definition mem_get (entries : list Entry) : result GetResult :=
  Ok {| got_documents := entry_text <$> entries;
        got_metadatas := entry_metadata <$> entries |}.

Definition mem_reader (dist : string -> string -> float)
    (db : gmap string (list Entry)) : @StoreReader (mem_store dist db) :=
  @Build_StoreReader (mem_store dist db) mem_get (Ok (map_to_list db)).

Definition example_reader : @StoreReader example_store :=
  mem_reader match_dist example_db.

Definition example_clock : Clock := {| time_time := 1762214400%float |}.

(** * Properties *)

(** ** The order of binary64 floats

    Comparison of floats is a total preorder away from NaN, and subtracting
    from 1 yields a NaN only on a NaN. *)

Module FloatOrder.

Lemma SFcompare_refl x : x <> S754_nan -> SFcompare x x = Some Eq.
Proof.
  destruct x as [s|s| |s m e]; simpl; try congruence; intros _.
  - by destruct s.
  - destruct s; rewrite Z.compare_refl; f_equal.
    + by rewrite Pos.compare_cont_refl.
    + by rewrite Pos.compare_cont_refl.
Qed.

Lemma SFcompare_antisym x y :
  SFcompare y x = CompOpp <$> SFcompare x y.
Proof.
  destruct x as [sx|sx| |sx mx ex], y as [sy|sy| |sy my ey]; simpl;
    try reflexivity; try (by destruct sx); try (by destruct sy);
    try (by destruct sx, sy).
  f_equal. destruct sx, sy; simpl; try reflexivity;
    rewrite (Z.compare_antisym ex ey); destruct (ex ?= ey)%Z; simpl;
    try reflexivity;
    change (Pos.compare_cont Eq my mx) with (my ?= mx)%positive;
    change (Pos.compare_cont Eq mx my) with (mx ?= my)%positive;
    rewrite (Pos.compare_antisym mx my); by destruct (mx ?= my)%positive.
Qed.

Lemma SFleb_total x y :
  x <> S754_nan -> y <> S754_nan -> SFltb x y = false -> SFleb y x = true.
Proof.
  intros Hx Hy. unfold SFltb, SFleb. rewrite (SFcompare_antisym x y).
  destruct (SFcompare x y) as [[]|] eqn:E; simpl; try done.
  destruct x, y; simpl in E; congruence.
Qed.

Lemma SFltb_leb x y : SFltb x y = true -> SFleb x y = true.
Proof. unfold SFltb, SFleb. by destruct (SFcompare x y) as [[]|]. Qed.

Lemma SFltb_not_geb x y : SFltb x y = true -> SFleb y x = false.
Proof.
  unfold SFltb, SFleb. rewrite (SFcompare_antisym x y).
  by destruct (SFcompare x y) as [[]|].
Qed.

Lemma SFleb_trans x y z :
  SFleb x y = true -> SFleb y z = true -> SFleb x z = true.
Proof.
  unfold SFleb.
  destruct x as [sx|sx| |sx mx ex], y as [sy|sy| |sy my ey],
    z as [sz|sz| |sz mz ez]; simpl; try done;
    try (by destruct sx); try (by destruct sy); try (by destruct sz);
    try (by destruct sx, sy); try (by destruct sy, sz); try (by destruct sx, sz);
    try (by destruct sx, sy, sz).
  change (Pos.compare_cont Eq) with Pos.compare.
  destruct sx, sy, sz; try done;
    destruct (Z.compare_spec ex ey), (Z.compare_spec ey ez),
      (Z.compare_spec ex ez); try lia; try done; subst;
    destruct (Pos.compare_spec mx my), (Pos.compare_spec my mz),
      (Pos.compare_spec mx mz); try lia; try done.
Qed.


(** Rounding never produces a NaN. *)
Section Rounding.
Context (prec emax : Z).

Lemma shr_1_nonneg mrs : 0 <= shr_m mrs -> 0 <= shr_m (shr_1 mrs).
Proof. destruct mrs as [[|[p|p|]|p] r s]; simpl; lia. Qed.

Lemma iter_pos_shr_1_nonneg p mrs :
  0 <= shr_m mrs -> 0 <= shr_m (SpecFloat.iter_pos shr_1 p mrs).
Proof.
  revert mrs. induction p as [p IH|p IH|]; simpl; intros mrs Hm.
  - by apply IH, IH, shr_1_nonneg.
  - by apply IH, IH.
  - by apply shr_1_nonneg.
Qed.

Lemma shr_fexp_nonneg m e l :
  0 <= m -> 0 <= shr_m (shr_fexp prec emax m e l).1.
Proof.
  intros Hm. unfold shr_fexp, shr.
  assert (0 <= shr_m (shr_record_of_loc m l)) by (by destruct l as [|[]]).
  destruct (fexp prec emax (Zdigits2 m + e) - e); simpl; try done.
  by apply iter_pos_shr_1_nonneg.
Qed.

Lemma round_nearest_even_nonneg m l :
  0 <= m -> 0 <= round_nearest_even m l.
Proof.
  intros Hm. destruct l as [|[]]; simpl; try lia. destruct (Z.even m); lia.
Qed.

Lemma binary_round_aux_not_nan s m e l :
  0 <= m -> binary_round_aux prec emax s m e l <> S754_nan.
Proof.
  intros Hm. unfold binary_round_aux.
  pose proof (shr_fexp_nonneg m e l Hm) as H1.
  destruct (shr_fexp prec emax m e l) as [mrs' e']; simpl in H1.
  pose proof (shr_fexp_nonneg _ e' loc_Exact
                (round_nearest_even_nonneg _ (loc_of_shr_record mrs') H1)) as H2.
  destruct (shr_fexp prec emax _ e' loc_Exact) as [mrs'' e'']; simpl in H2.
  destruct (shr_m mrs''); try lia; try done.
  by destruct (e'' <=? emax - prec).
Qed.

Lemma binary_normalize_not_nan m e szero :
  binary_normalize prec emax m e szero <> S754_nan.
Proof.
  destruct m as [|p|p]; simpl; try done; unfold binary_round;
    destruct (shl_align _ _ _); by apply binary_round_aux_not_nan.
Qed.

Lemma SFsub_finite_not_nan s m e y :
  y <> S754_nan -> SFsub prec emax (S754_finite s m e) y <> S754_nan.
Proof.
  destruct y as [sy|sy| |sy my ey]; simpl; try done.
  intros _. apply binary_normalize_not_nan.
Qed.

End Rounding.

(** The same facts on the primitive floats. *)

Lemma is_nan_false x : PrimFloat.is_nan x = false <-> Prim2SF x <> S754_nan.
Proof.
  unfold PrimFloat.is_nan. rewrite FloatAxioms.eqb_spec. unfold SFeqb. split.
  - intros Hx Hn. rewrite Hn in Hx. done.
  - intros Hx. by rewrite SFcompare_refl.
Qed.

Lemma ltb_not_nan_l x y : (x <? y)%float = true -> PrimFloat.is_nan x = false.
Proof.
  rewrite FloatAxioms.ltb_spec, is_nan_false. unfold SFltb. intros Hlt Hn.
  rewrite Hn in Hlt. done.
Qed.

Lemma ltb_not_geb x y : (x <? y)%float = true -> (y <=? x)%float = false.
Proof. rewrite FloatAxioms.ltb_spec, FloatAxioms.leb_spec. apply SFltb_not_geb. Qed.

Lemma ltb_leb x y : (x <? y)%float = true -> (x <=? y)%float = true.
Proof. rewrite FloatAxioms.ltb_spec, FloatAxioms.leb_spec. apply SFltb_leb. Qed.

Lemma leb_total x y :
  PrimFloat.is_nan x = false -> PrimFloat.is_nan y = false ->
  (x <? y)%float = false -> (y <=? x)%float = true.
Proof. rewrite !is_nan_false, FloatAxioms.ltb_spec, FloatAxioms.leb_spec. apply SFleb_total. Qed.

Lemma leb_trans x y z :
  (x <=? y)%float = true -> (y <=? z)%float = true -> (x <=? z)%float = true.
Proof. rewrite !FloatAxioms.leb_spec. apply SFleb_trans. Qed.

Lemma one_minus_not_nan d :
  PrimFloat.is_nan d = false -> PrimFloat.is_nan (1 - d)%float = false.
Proof.
  rewrite !is_nan_false, FloatAxioms.sub_spec. intros Hd.
  change (Prim2SF 1) with (S754_finite false 4503599627370496 (-52)).
  by apply SFsub_finite_not_nan.
Qed.

End FloatOrder.


(** ** Whitespace: [strip], [split] and [join] *)

Module PyStrFacts.

Lemma append_cons c s t : String c s +:+ t = String c (s +:+ t).
Proof. reflexivity. Qed.

Lemma append_assoc s t u : (s +:+ t) +:+ u = s +:+ t +:+ u.
Proof.
  induction s as [|c s IH]; [done|]. by rewrite !append_cons, IH.
Qed.

Lemma rstrip_nonempty c s : isspace c = false -> rstrip (String c s) <> EmptyString.
Proof. intros Hc. simpl. destruct (rstrip s); [by rewrite Hc|done]. Qed.

Lemma lstrip_head s :
  lstrip s = EmptyString
  \/ exists c s', lstrip s = String c s' /\ isspace c = false.
Proof.
  induction s as [|c s IH]; simpl; [by left|].
  destruct (isspace c) eqn:Hc; [done|]. right. by exists c, s.
Qed.

Lemma strip_empty_lstrip s : strip s = EmptyString -> lstrip s = EmptyString.
Proof.
  unfold strip. destruct (lstrip_head s) as [->|(c & s' & -> & Hc)]; [done|].
  intros Hr. by apply rstrip_nonempty in Hr.
Qed.

Lemma lstrip_empty_split s : lstrip s = EmptyString -> split s = [].
Proof.
  unfold split. induction s as [|c s IH]; simpl; [done|].
  destruct (isspace c); [done|discriminate].
Qed.

Lemma strip_empty_split s : strip s = EmptyString -> split s = [].
Proof. intros Hs. by apply lstrip_empty_split, strip_empty_lstrip. Qed.

Lemma no_space_app s c :
  no_space s -> isspace c = false -> no_space (s +:+ String c EmptyString).
Proof. induction s as [|a s IH]; simpl; [done|]. intros [? ?] ?. split; auto. Qed.

Lemma truthy_snoc s c : truthy (s +:+ String c EmptyString) = true.
Proof. by destruct s. Qed.

Lemma split_from_words s :
  forall word, no_space word ->
    Forall (fun w => truthy w = true /\ no_space w) (split_from word s).
Proof.
  induction s as [|c s IH]; intros word Hw; simpl.
  - destruct (truthy word) eqn:Ht; by repeat constructor.
  - destruct (isspace c) eqn:Hc.
    + destruct (truthy word) eqn:Ht; [constructor; [done|]|]; by apply IH.
    + by apply IH, no_space_app.
Qed.

Lemma lstrip_no_space_head c s : isspace c = false -> lstrip (String c s) = String c s.
Proof. intros Hc. simpl. by rewrite Hc. Qed.

Lemma rstrip_no_space s : no_space s -> rstrip s = s.
Proof.
  induction s as [|c s IH]; simpl; [done|]. intros [Hc Hs].
  rewrite (IH Hs). destruct s; [by rewrite Hc|done].
Qed.

Lemma rstrip_app_word s w :
  truthy w = true -> no_space w -> rstrip (s +:+ w) = s +:+ w.
Proof.
  intros Ht Hw. induction s as [|c s IH]; simpl.
  - by apply rstrip_no_space.
  - change (String c s +:+ w) with (String c (s +:+ w)). simpl. rewrite IH.
    destruct (s +:+ w) eqn:E; [|done].
    destruct s, w; simpl in *; discriminate.
Qed.

Lemma join_words_end sep ws :
  ws <> [] -> Forall (fun w => truthy w = true /\ no_space w) ws ->
  exists s w, join sep ws = s +:+ w /\ truthy w = true /\ no_space w.
Proof.
  induction ws as [|w1 ws IH]; [done|]. intros _ Hall.
  apply Forall_cons in Hall as [[Ht Hw] Hall].
  destruct ws as [|w2 ws].
  - exists EmptyString, w1. by repeat split.
  - destruct IH as (s & w & Hj & Ht' & Hw'); [done|done|].
    exists (w1 +:+ sep +:+ s), w. repeat split; try done.
    change (join sep (w1 :: w2 :: ws)) with (w1 +:+ sep +:+ join sep (w2 :: ws)).
    rewrite Hj. by rewrite !append_assoc.
Qed.

Lemma join_words_head sep ws :
  Forall (fun w => truthy w = true /\ no_space w) ws ->
  lstrip (join sep ws) = join sep ws.
Proof.
  destruct ws as [|w ws]; [done|]. intros Hall.
  apply Forall_cons in Hall as [[Ht Hw] _].
  destruct w as [|c w]; [done|]. destruct Hw as [Hc _].
  destruct ws; simpl; by rewrite Hc.
Qed.

(** The text of a page after [' '.join(page_text.split())] has no
    whitespace at its ends. *)
Lemma strip_normalised s : strip (join " " (split s)) = join " " (split s).
Proof.
  pose proof (split_from_words s EmptyString I) as Hall. fold (split s) in Hall.
  unfold strip. rewrite join_words_head by done.
  destruct (split s) as [|w ws] eqn:E; [done|].
  destruct (join_words_end " " (w :: ws)) as (a & b & -> & Ht & Hb); [done|done|].
  by apply rstrip_app_word.
Qed.

End PyStrFacts.

(** ** [list.sort(key=..., reverse=True)] *)

Section SortReverseFacts.
Context {A : Type} (key : A -> float).

Lemma insert_reverse_perm x l : insert_reverse key x l ≡ₚ x :: l.
Proof.
  induction l as [|y l IH]; simpl; [done|].
  destruct (key x <? key y)%float; [|done].
  rewrite IH. apply Permutation_swap.
Qed.

Lemma sort_reverse_perm l : sort_reverse key l ≡ₚ l.
Proof.
  induction l as [|x l IH]; simpl; [done|].
  by rewrite insert_reverse_perm, IH.
Qed.

Lemma insert_reverse_sorted x l :
  PrimFloat.is_nan (key x) = false ->
  Forall (fun a => PrimFloat.is_nan (key a) = false) l ->
  StronglySorted (key_ge key) l ->
  StronglySorted (key_ge key) (insert_reverse key x l).
Proof.
  intros Hx Hl Hs. induction Hs as [|y l Hs IH Hy]; simpl.
  - repeat constructor.
  - apply Forall_cons in Hl as [Hny Hl].
    destruct (key x <? key y)%float eqn:Hlt.
    + constructor; [by apply IH|].
      rewrite insert_reverse_perm. constructor; [|done].
      by apply FloatOrder.ltb_leb.
    + assert (key_ge key x y) as Hxy by (by apply FloatOrder.leb_total).
      constructor; [by constructor|]. constructor; [done|].
      eapply Forall_impl; [exact Hy|]. intros z Hz.
      by apply (FloatOrder.leb_trans _ (key y)).
Qed.

Lemma sort_reverse_sorted l :
  Forall (fun a => PrimFloat.is_nan (key a) = false) l ->
  StronglySorted (key_ge key) (sort_reverse key l).
Proof.
  induction 1 as [|x l Hx Hl IH]; simpl; [constructor|].
  apply insert_reverse_sorted; [done| |done].
  by rewrite sort_reverse_perm.
Qed.

Lemma StronglySorted_take (R : A -> A -> Prop) n l :
  StronglySorted R l -> StronglySorted R (take n l).
Proof.
  intros Hs. revert n. induction Hs as [|x l Hs IH Hx]; intros [|n]; simpl;
    try constructor; [by apply IH|].
  by apply Forall_take.
Qed.

End SortReverseFacts.

(** ** Multi-document retrieval *)

Lemma index_Ok {A : Type} (l : list A) i x : index l i = Ok x -> l !! i = Some x.
Proof. unfold index. destruct (l !! i); congruence. Qed.

Lemma index_lookup {A : Type} (l : list A) i x :
  l !! i = Some x -> index l i = Ok x.
Proof. unfold index. by intros ->. Qed.

Section MultiRetrievalFacts.
Context `{VectorStore}.

Lemma collect_results_Forall (P : SourcedContext -> Prop) doc_id results :
  (forall i content metadata distance,
     documents results !! i = Some content ->
     metadatas results !! i = Some metadata ->
     distances results !! i = Some distance ->
     (distance <? 1.5)%float = true ->
     P (sourced doc_id i content metadata distance)) ->
  forall docs i all_contexts,
    (forall j content, docs !! j = Some content ->
                       documents results !! (i + j)%nat = Some content) ->
    Forall P all_contexts ->
    Forall P (collect_results doc_id results i docs all_contexts).2.
Proof.
  intros HP docs. induction docs as [|content rest IH];
    intros i all_contexts Hdocs Hall; simpl; [done|].
  assert (forall j c, rest !! j = Some c ->
                      documents results !! (S i + j)%nat = Some c) as Hrest.
  { intros j c Hj. specialize (Hdocs (S j) c Hj).
    by replace (S i + j)%nat with (i + S j)%nat by lia. }
  destruct (index (distances results) i) as [distance|e] eqn:Hd; [|done].
  destruct (distance <? 1.5)%float eqn:Hlt; [|by apply IH].
  destruct (index (metadatas results) i) as [metadata|e] eqn:Hm; [|done].
  apply IH; [done|]. apply Forall_app. split; [done|].
  constructor; [|done]. apply HP; try done; try by apply index_Ok.
  specialize (Hdocs 0%nat content eq_refl).
  by replace (i + 0)%nat with i in Hdocs by lia.
Qed.

Lemma search_document_retrieved query document_ids k_per_doc doc_id all_contexts :
  doc_id ∈ document_ids ->
  Forall (retrieved_from query document_ids k_per_doc) all_contexts ->
  Forall (retrieved_from query document_ids k_per_doc)
         (search_document query k_per_doc doc_id all_contexts).
Proof.
  intros Hin Hall. unfold search_document.
  destruct (get_collection doc_id) as [collection|e] eqn:Hget; simpl; [|done].
  destruct (coll_query collection query k_per_doc)
    as [results|e] eqn:Hq; [|done].
  apply collect_results_Forall; [|done|done].
  intros i content metadata distance Hc Hm Hd Hlt.
  exists doc_id, collection, results, i, content, metadata, distance.
  repeat split; try done. by apply FloatOrder.ltb_not_geb.
Qed.

Lemma all_contexts_retrieved query document_ids k_per_doc ids all_contexts :
  ids ⊆ document_ids ->
  Forall (retrieved_from query document_ids k_per_doc) all_contexts ->
  Forall (retrieved_from query document_ids k_per_doc)
         (foldl (fun all_contexts doc_id =>
                   search_document query k_per_doc doc_id all_contexts)
                all_contexts ids).
Proof.
  revert all_contexts. induction ids as [|doc_id ids IH];
    intros all_contexts Hsub Hall; simpl; [done|].
  apply IH; [set_solver|]. apply search_document_retrieved; [set_solver|done].
Qed.

Lemma retrieved_from_not_nan query document_ids k_per_doc c :
  retrieved_from query document_ids k_per_doc c ->
  PrimFloat.is_nan (sc_similarity_score c) = false.
Proof.
  intros (doc_id & collection & results & i & content & metadata & distance
          & _ & _ & _ & _ & _ & _ & Hlt & _ & _ & _ & -> & _ & _).
  by eapply FloatOrder.one_minus_not_nan, FloatOrder.ltb_not_nan_l.
Qed.

(** C2. For every query, list of document identifiers and per-document k,
    the list [retrieve_context_multiple_docs] returns has at most 10
    elements, is sorted by non-increasing [similarity_score], and each of
    its elements was built from a result of the query on the collection of
    one of the documents whose reported distance is below 1.5 (so not
    1.5 or more); the element carries that document's identifier, which is
    one of the identifiers asked for, and the label
    [Document: <id> | Chunk: <i>] made of that identifier and of the index
    of the result. *)
Theorem retrieve_context_multiple_docs_spec
    (query : string) (document_ids : list string) (k_per_doc : Z) :
  let all_contexts :=
    retrieve_context_multiple_docs query document_ids k_per_doc in
  (length all_contexts <= 10)%nat
  /\ StronglySorted (key_ge sc_similarity_score) all_contexts
  /\ Forall (retrieved_from query document_ids k_per_doc) all_contexts
  /\ Forall (fun c =>
               sc_document_id c ∈ document_ids
               /\ exists i : nat,
                    sc_source c
                    = "Document: " +:+ sc_document_id c +:+ " | Chunk: "
                      +:+ pretty i)
            all_contexts.
Proof.
  unfold retrieve_context_multiple_docs.
  set (found := foldl _ [] document_ids).
  assert (Forall (retrieved_from query document_ids k_per_doc) found) as Hf.
  { by apply all_contexts_retrieved. }
  assert (Forall (retrieved_from query document_ids k_per_doc)
            (take 10 (sort_reverse sc_similarity_score found))) as Ht.
  { apply Forall_take. by rewrite sort_reverse_perm. }
  split; [|split; [|split]].
  - rewrite length_take. lia.
  - apply StronglySorted_take, sort_reverse_sorted.
    eapply Forall_impl; [exact Hf|]. apply retrieved_from_not_nan.
  - exact Ht.
  - eapply Forall_impl; [exact Ht|].
    intros c (doc_id & collection & results & i & content & metadata
              & distance & Hin & _ & _ & _ & _ & _ & _ & _ & _ & _ & _
              & Hid & Hsource).
    rewrite Hid. split; [done|]. by exists i.
Qed.

End MultiRetrievalFacts.

(** ** Single-document retrieval *)

Section RetrievalFacts.
Context `{VectorStore}.

(** The loop returns what it was given, then one dictionary per document
    left, when the store answered with lists that are long enough. *)
Lemma retrieve_context_loop_spec results docs :
  forall i context_data,
    (i + length docs <= length (distances results))%nat ->
    (i + length docs <= length (metadatas results))%nat ->
    exists found,
      retrieve_context_loop results i docs context_data
        = Ok (context_data ++ found)
      /\ length found = length docs
      /\ forall j content,
           docs !! j = Some content ->
           exists metadata distance,
             metadatas results !! (i + j)%nat = Some metadata
             /\ distances results !! (i + j)%nat = Some distance
             /\ found !! j
                = Some {| content := content;
                          metadata := metadata;
                          similarity_score := (1 - distance / 2)%float |}.
Proof.
  induction docs as [|content rest IH]; intros i context_data Hd Hm; simpl.
  - exists []. rewrite app_nil_r. by repeat split.
  - simpl in Hd, Hm.
    destruct (lookup_lt_is_Some_2 (distances results) i) as [distance Hdi];
      [lia|].
    destruct (lookup_lt_is_Some_2 (metadatas results) i) as [metadata Hmi];
      [lia|].
    rewrite (index_lookup _ _ _ Hdi). simpl.
    rewrite (index_lookup _ _ _ Hmi). simpl.
    destruct (IH (S i)
                (context_data ++
                   [{| content := content;
                       metadata := metadata;
                       similarity_score := (1 - distance / 2)%float |}]))
      as (found & Hrun & Hlen & Hfound); [lia|lia|].
    eexists (_ :: found). split; [|split].
    + rewrite Hrun. by rewrite <- app_assoc.
    + simpl. by rewrite Hlen.
    + intros [|j] c Hj; simpl in Hj.
      * injection Hj as <-. exists metadata, distance.
        replace (i + 0)%nat with i by lia. done.
      * destruct (Hfound j c Hj) as (md & d & ? & ? & ?).
        exists md, d. by replace (i + S j)%nat with (S i + j)%nat by lia.
Qed.

(** The loop raises nothing but what [except Exception] catches, and
    [retrieve_context] catches it. *)
Lemma retrieve_context_returns query document_id k :
  exists context_data, retrieve_context query document_id k = Ok context_data.
Proof.
  unfold retrieve_context.
  destruct (get_collection document_id) as [collection|e]; simpl; [|by eexists].
  destruct (coll_count collection) as [n|e]; simpl; [|by eexists].
  destruct (n =? 0); simpl; [by eexists|].
  destruct (coll_query collection query (Z.min k n)) as [results|e];
    simpl; [|by eexists].
  destruct (retrieve_context_loop results 0 (documents results) []);
    simpl; by eexists.
Qed.

(** C3. For every query over an existing, non-empty collection whose
    nearest-neighbour query answers with parallel lists of at most
    [n_results] results, [retrieve_context query document_id k] returns one
    dictionary per result of the query, none filtered, at most [k] of them,
    and the dictionary of result [i] carries the similarity score
    [1 - distance / 2] of the distance reported for it. *)
Theorem retrieve_context_returns_all
    (query document_id : string) (k : Z)
    (collection : collection) (collection_count : Z) (results : QueryResult) :
  get_collection document_id = Ok collection ->
  coll_count collection = Ok collection_count ->
  collection_count <> 0 ->
  coll_query collection query (Z.min k collection_count) = Ok results ->
  length (metadatas results) = length (documents results) ->
  length (distances results) = length (documents results) ->
  Z.of_nat (length (documents results)) <= Z.min k collection_count ->
  exists context_data,
    retrieve_context query document_id k = Ok context_data
    /\ length context_data = length (documents results)
    /\ Z.of_nat (length context_data) <= k
    /\ forall i content metadata distance,
         documents results !! i = Some content ->
         metadatas results !! i = Some metadata ->
         distances results !! i = Some distance ->
         context_data !! i
         = Some {| content := content;
                   metadata := metadata;
                   similarity_score := (1 - distance / 2)%float |}.
Proof.
  intros Hget Hcount Hne Hquery Hmd Hds Hbound.
  destruct (retrieve_context_loop_spec results (documents results) 0 [])
    as (found & Hrun & Hlen & Hfound); [simpl; lia|simpl; lia|].
  exists found. split; [|split; [done|split; [lia|]]].
  - unfold retrieve_context. rewrite Hget. simpl. rewrite Hcount. simpl.
    destruct (Z.eqb_spec collection_count 0) as [|_]; [done|]. simpl.
    rewrite Hquery. simpl. by rewrite Hrun.
  - intros i content metadata distance Hc Hm Hd.
    destruct (Hfound i content Hc) as (md & d & Hm' & Hd' & ->).
    simpl in Hm', Hd'. congruence.
Qed.

(** An identifier that was never indexed has no collection in the
    in-memory store. *)
Lemma retrieve_context_never_indexed dist (db : gmap string (list Entry))
    query document_id k :
  db !! document_id = None ->
  retrieve_context (H:=mem_store dist db) query document_id k = Ok [].
Proof.
  intros Hnone. unfold retrieve_context. simpl. unfold mem_get_collection.
  by rewrite Hnone.
Qed.

(** C5. For every query and every document identifier whose collection
    cannot be opened (it does not exist, as for an identifier that was never
    indexed) or holds zero entries, [retrieve_context] returns the empty
    list; it raises nothing. *)
Theorem retrieve_context_absent_or_empty
    (query document_id : string) (k : Z) :
  (exists e, get_collection document_id = Raise e)
  \/ (exists collection,
        get_collection document_id = Ok collection
        /\ coll_count collection = Ok 0) ->
  retrieve_context query document_id k = Ok [].
Proof.
  unfold retrieve_context.
  intros [[e ->]|(collection & -> & Hcount)]; simpl; [done|].
  by rewrite Hcount.
Qed.

(** C9. [retrieve_context] is total with respect to failures of the vector
    store: for every input it returns a list, and when opening the
    collection, counting it or running the nearest-neighbour query raises,
    the exception is caught and the list is empty. *)
Theorem retrieve_context_total (query document_id : string) (k : Z) :
  (exists context_data, retrieve_context query document_id k = Ok context_data)
  /\ (forall e,
        get_collection document_id = Raise e ->
        retrieve_context query document_id k = Ok [])
  /\ (forall collection e,
        get_collection document_id = Ok collection ->
        coll_count collection = Raise e ->
        retrieve_context query document_id k = Ok [])
  /\ (forall collection n e,
        get_collection document_id = Ok collection ->
        coll_count collection = Ok n ->
        coll_query collection query (Z.min k n) = Raise e ->
        retrieve_context query document_id k = Ok []).
Proof.
  split; [apply retrieve_context_returns|].
  unfold retrieve_context. split; [|split].
  - by intros e ->.
  - intros collection e -> Hcount. simpl. by rewrite Hcount.
  - intros collection n e -> Hcount Hquery. simpl. rewrite Hcount. simpl.
    destruct (n =? 0); simpl; [done|]. by rewrite Hquery.
Qed.

End RetrievalFacts.

(** ** Parsing and [POST /api/v1/document/index] *)

(** What the loop of [parse_pdf] does with a page that yields a text: the
    page is kept exactly when its normalised text is longer than 10
    characters. *)
Lemma parse_pdf_page_threshold page_num page page_text text :
  extract_text page = Ok page_text ->
  parse_pdf_page page_num page text
  = if (10 <? String.length (join " " (split page_text)))%nat
    then text +:+ "Page " +:+ pretty (page_num + 1)%nat +:+ ":" +:+ LF
              +:+ join " " (split page_text) +:+ LF +:+ LF
    else text.
Proof.
  intros Hpage. unfold parse_pdf_page. rewrite Hpage.
  rewrite PyStrFacts.strip_normalised.
  destruct page_text as [|c page_text]; [done|]. simpl truthy.
  destruct (truthy (strip (String c page_text))) eqn:Hstrip; [done|].
  assert (strip (String c page_text) = EmptyString) as Hblank.
  { by destruct (strip (String c page_text)). }
  by rewrite (PyStrFacts.strip_empty_split _ Hblank).
Qed.

(** A page whose normalised text has exactly 10 characters is dropped,
    whatever the page. *)
Lemma parse_pdf_page_drops_ten page_num page page_text text :
  extract_text page = Ok page_text ->
  String.length (join " " (split page_text)) = 10%nat ->
  parse_pdf_page page_num page text = text.
Proof.
  intros Hpage Hlen.
  by rewrite (parse_pdf_page_threshold _ _ page_text), Hlen.
Qed.

(** C4 (as the code has it). A page whose normalised text has exactly 10
    characters is dropped and a page of 11 characters is kept: the test is
    [len(page_text.strip()) > 10]. A PDF of the one page [0123456789] is
    refused as empty, and in a PDF of two pages only the longer one is
    left. *)
Theorem parse_pdf_ten_characters_dropped :
  let libs pages := fixed_libs (Ok pages) (Ok []) (Ok EmptyString) in
  String.length "0123456789" = 10%nat
  /\ parse_pdf_page 0 (page_of "0123456789") EmptyString
     = EmptyString
  /\ parse_pdf_page 0 (page_of "0123456789a") EmptyString
     = "Page 1:" +:+ LF +:+ "0123456789a" +:+ LF +:+ LF
  /\ parse_pdf (H:=libs [page_of "0123456789"]) []
     = Raise (HTTPException 500
                "PDF Parsing Error: 500: PDF appears to be empty or contains no extractable text")
  /\ parse_pdf (H:=libs [page_of "0123456789"; page_of "Quarterly  report"]) []
     = Ok ("Page 2:" +:+ LF +:+ "Quarterly report" +:+ LF +:+ LF).
Proof. repeat split; vm_compute; reflexivity. Qed.

Section IndexDocumentFacts.
Context `{DocLibs} `{VectorStore}.

Lemma parse_upload_unsupported file :
  file_extension file ∉ [".pdf"; ".docx"; ".txt"] ->
  parse_upload file
  = Raise (HTTPException 400
             ("Unsupported file type: " +:+ file_extension file)).
Proof.
  intros Hext. unfold parse_upload. cbv zeta.
  destruct (String.eqb_spec (file_extension file) ".pdf") as [Heq|_];
    [rewrite Heq in Hext; set_solver|].
  destruct (String.eqb_spec (file_extension file) ".docx") as [Heq|_];
    [rewrite Heq in Hext; set_solver|].
  destruct (String.eqb_spec (file_extension file) ".txt") as [Heq|_];
    [rewrite Heq in Hext; set_solver|].
  done.
Qed.

Lemma parse_pdf_blank file_data pages :
  PdfReader file_data = Ok pages ->
  strip (parse_pdf_pages 0 pages EmptyString) = EmptyString ->
  parse_pdf file_data
  = Raise (HTTPException 500
             "PDF Parsing Error: 500: PDF appears to be empty or contains no extractable text").
Proof. intros Hread Hblank. unfold parse_pdf. rewrite Hread. simpl. by rewrite Hblank. Qed.

(** A PDF upload is never answered with 422: [parse_pdf] returns a text with
    a page label in it, or raises. *)
Lemma index_document_pdf_never_422 file :
  file_extension file = ".pdf" -> http_status (index_document file) <> 422.
Proof.
  intros Hext. unfold index_document, parse_upload. rewrite Hext. simpl.
  unfold parse_pdf. destruct (PdfReader (file_data file)) as [pages|e];
    simpl; [|done].
  destruct (truthy (strip (parse_pdf_pages 0 pages EmptyString))) eqn:Htext;
    simpl; [|done].
  rewrite Htext. simpl. unfold insert_chunks_to_chroma.
  destruct (get_or_create_collection uuid4) as [collection|e]; simpl; [|done].
  by destruct (coll_add collection _ _ _).
Qed.

(** C1 (amended). [POST /document/index] answers 400 when the lower-cased
    extension of the file name is not [.pdf], [.docx] or [.txt]; it answers
    422 whenever the parser returns a text that is empty or whitespace-only;
    and for a PDF none of whose pages yields usable text, [parse_pdf] raises,
    so that the answer is 500. *)
Theorem index_document_errors (file : UploadFile) :
  (file_extension file ∉ [".pdf"; ".docx"; ".txt"] ->
   index_document file
   = Raise (HTTPException 400
              ("Unsupported file type: " +:+ file_extension file)))
  /\ (forall raw_text,
        parse_upload file = Ok raw_text ->
        strip raw_text = EmptyString ->
        index_document file
        = Raise (HTTPException 422 "Could not extract any meaningful text."))
  /\ (forall pages,
        file_extension file = ".pdf" ->
        PdfReader (file_data file) = Ok pages ->
        strip (parse_pdf_pages 0 pages EmptyString) = EmptyString ->
        http_status (index_document file) = 500).
Proof.
  unfold index_document. split; [|split].
  - intros Hext. by rewrite parse_upload_unsupported.
  - intros raw_text -> Hblank. simpl. by rewrite Hblank.
  - intros pages Hext Hread Hblank. unfold parse_upload. rewrite Hext. simpl.
    by rewrite (parse_pdf_blank _ pages).
Qed.

End IndexDocumentFacts.

(** C1 (as stated) fails on a PDF: a scanned PDF whose only page has no text
    is a supported file whose parsed text is empty, and the answer is 500,
    not 422. *)
Lemma index_document_blank_pdf_not_422 :
  let libs := fixed_libs (Ok [page_of EmptyString]) (Ok []) (Ok EmptyString) in
  let file := {| filename := "scan.pdf"; file_data := [] |} in
  file_extension file = ".pdf"
  /\ strip (parse_pdf_pages 0 [page_of EmptyString] EmptyString)
     = EmptyString
  /\ http_status (index_document (H:=libs) (H0:=example_store) file) = 500
  /\ http_status (index_document (H:=libs) (H0:=example_store) file) <> 422.
Proof. repeat split; vm_compute; congruence. Qed.

(** [index_document_errors] on a [.csv] upload, on a [.txt] upload of
    blanks, and on a PDF of one blank page. *)
Lemma index_document_errors_witness :
  let libs :=
    fixed_libs (Ok [page_of "   "]) (Ok []) (Ok ("  " +:+ LF)) in
  index_document (H:=libs) (H0:=example_store)
    {| filename := "table.csv"; file_data := [] |}
  = Raise (HTTPException 400 "Unsupported file type: .csv")
  /\ index_document (H:=libs) (H0:=example_store)
       {| filename := "notes.TXT"; file_data := [] |}
     = Raise (HTTPException 422 "Could not extract any meaningful text.")
  /\ http_status
       (index_document (H:=libs) (H0:=example_store)
          {| filename := "scan.pdf"; file_data := [] |})
     = 500.
Proof.
  intros libs. split; [|split].
  - apply (proj1 (index_document_errors (H:=libs) (H0:=example_store)
                    {| filename := "table.csv"; file_data := [] |})).
    vm_compute. intros Hin. repeat (apply elem_of_cons in Hin as [Hin|Hin];
      [discriminate|]). by apply elem_of_nil in Hin.
  - apply (proj1 (proj2 (index_document_errors (H:=libs) (H0:=example_store)
                    {| filename := "notes.TXT"; file_data := [] |}))
             ("  " +:+ LF)); reflexivity.
  - apply (proj2 (proj2 (index_document_errors (H:=libs) (H0:=example_store)
                    {| filename := "scan.pdf"; file_data := [] |}))
             [page_of "   "]); reflexivity.
Defined.

(** ** Answer generation *)

Section GenerationFacts.
Context `{GenerativeModel}.

(** C6. For every question, [generate_rag_response] called with an empty
    context list returns the fixed message that no relevant context was
    found, and the model is not called: the list of the prompts submitted is
    as before. *)
Theorem generate_rag_response_no_context
    (user_question : string) (calls : list string) :
  generate_rag_response [] user_question calls
  = (Ok "I could not find relevant context in the document to answer that question.",
     calls).
Proof. reflexivity. Qed.

(** C7. For every non-empty context and question, if the call of the model
    raises, [generate_rag_response] returns normally with a message that
    embeds the text of the exception, and so does
    [generate_rag_response_with_sources]; neither raises. *)
Theorem generation_failure_in_band (user_question : string)
    (calls : list string) (e : exn) :
  (forall context : list ContextItem,
     context <> [] ->
     let prompt :=
       rag_prompt (join (LF +:+ "---" +:+ LF) (content <$> context))
                  user_question in
     generate_content calls prompt = Raise e ->
     generate_rag_response context user_question calls
     = (Ok ("Error: The AI service failed to generate a response: "
            +:+ exn_str e),
        calls ++ [prompt]))
  /\ (forall (context : list SourcedContext)
             (contexts_by_doc : list (string * list SourcedContext)),
        let prompt :=
          sources_prompt (documents_text contexts_by_doc EmptyString)
                         user_question in
        generate_content calls prompt = Raise e ->
        generate_rag_response_with_sources
          context user_question contexts_by_doc calls
        = (Ok ("Error generating response: " +:+ exn_str e),
           calls ++ [prompt])).
Proof.
  split.
  - intros [|c context] Hne prompt Hraise; [done|].
    unfold generate_rag_response, call_model. fold prompt. by rewrite Hraise.
  - intros context contexts_by_doc prompt Hraise.
    unfold generate_rag_response_with_sources, call_model. fold prompt.
    by rewrite Hraise.
Qed.

Lemma generate_rag_response_with_sources_returns
    context user_question contexts_by_doc calls :
  exists answer calls',
    generate_rag_response_with_sources
      context user_question contexts_by_doc calls
    = (Ok answer, calls').
Proof.
  unfold generate_rag_response_with_sources, call_model.
  destruct (generate_content calls _); simpl; by eexists _, _.
Qed.

Lemma summary_prompts_overview context_text :
  summary_prompts context_text !!! "overview" = overview_prompt context_text.
Proof.
  unfold summary_prompts.
  rewrite !lookup_total_insert_ne by done. apply lookup_total_insert_eq.
Qed.

Lemma summary_prompts_other context_text summary_type :
  summary_type ∉ ["overview"; "key_points"; "executive"; "detailed"] ->
  summary_prompts context_text !! summary_type = None.
Proof.
  rewrite !not_elem_of_cons. intros (? & ? & ? & ? & _).
  unfold summary_prompts. rewrite !lookup_insert_ne by done.
  apply lookup_empty.
Qed.

(** C10. For every chunk list, [generate_document_summary] called with a
    [summary_type] outside overview, key_points, executive and detailed does
    not fail: it submits the overview prompt and returns a text. Whatever
    the style, the prompt is built from the first 15 chunks at most. *)
Theorem generate_document_summary_unknown_style (document_id : string)
    (chunks : list string) (summary_type : string) (calls : list string) :
  summary_type ∉ ["overview"; "key_points"; "executive"; "detailed"] ->
  summary_prompt chunks summary_type
  = overview_prompt (join LF (take 15 chunks))
  /\ (exists summary,
        generate_document_summary document_id chunks summary_type calls
        = (Ok summary,
           calls ++ [overview_prompt (join LF (take 15 chunks))]))
  /\ (forall style,
        summary_prompt chunks style = summary_prompt (take 15 chunks) style).
Proof.
  intros Hother.
  assert (summary_prompt chunks summary_type
          = overview_prompt (join LF (take 15 chunks))) as Hprompt.
  { unfold summary_prompt. cbv zeta.
    by rewrite summary_prompts_other, summary_prompts_overview. }
  split; [done|split].
  - unfold generate_document_summary, call_model. rewrite Hprompt.
    destruct (generate_content calls _); simpl; by eexists.
  - intros style. unfold summary_prompt. by rewrite take_idemp.
Qed.

End GenerationFacts.

(** ** [POST /api/v1/qa/ask-multiple] *)

Section HandlerFacts.
Context `{VectorStore} `{GenerativeModel}.

(** C8. For every request to [POST /qa/ask-multiple] that retrieves at least
    one context, the body of the response is the dictionary of the one key
    [answer], bound to the text [generate_rag_response_with_sources]
    returned: the source metadata, one entry per retrieved context, is
    computed and left out. *)
Theorem contextual_qa_multiple_answer_only (data : AskMultipleRequest)
    (ids : list string) (user_question : string) (calls : list string) :
  document_ids data = Some ids ->
  question data = Some user_question ->
  ids <> [] ->
  user_question <> EmptyString ->
  retrieve_context_multiple_docs user_question ids 3 <> [] ->
  let context_data := retrieve_context_multiple_docs user_question ids 3 in
  exists answer calls',
    generate_rag_response_with_sources
      context_data user_question (group_by_document context_data) calls
    = (Ok answer, calls')
    /\ contextual_qa_multiple data calls = (Ok [("answer", JStr answer)], calls')
    /\ length (source_metadata_multiple context_data) = length context_data
    /\ source_metadata_multiple context_data <> [].
Proof.
  intros Hids Hq Hne Hqne Hfound. cbv zeta.
  unfold contextual_qa_multiple. rewrite Hids, Hq. simpl.
  rewrite bool_decide_true by done.
  destruct user_question as [|a user_question]; [done|]. simpl.
  set (q := String a user_question) in *.
  destruct (retrieve_context_multiple_docs q ids 3)
    as [|c rest] eqn:Hcd; [done|].
  destruct (generate_rag_response_with_sources_returns
              (c :: rest) q (group_by_document (c :: rest)) calls)
    as (answer & calls' & Hgen).
  exists answer, calls'. rewrite Hgen.
  unfold generate_rag_response_with_sources, call_model in Hgen.
  injection Hgen as -> <-.
  unfold source_metadata_multiple. by rewrite length_fmap.
Qed.

End HandlerFacts.

(** ** The theorems at work on the example store and models *)

(** [retrieve_context_returns_all] on the query [beta] over [doc-1] with
    [k = 2]: the two nearest chunks come back, the exact match first with
    similarity 1. *)
Lemma retrieve_context_returns_all_witness :
  exists context_data,
    retrieve_context (H:=example_store) "beta" "doc-1" 2 = Ok context_data
    /\ length context_data = 2%nat
    /\ context_data !! 0%nat
       = Some {| content := "beta";
                 metadata := {| chunk_index := 1 |};
                 similarity_score := 1%float |}
    /\ context_data !! 1%nat
       = Some {| content := "alpha";
                 metadata := {| chunk_index := 0 |};
                 similarity_score := 0.5%float |}.
Proof.
  destruct (retrieve_context_returns_all (H:=example_store) "beta" "doc-1" 2
              [entry 0 "alpha"; entry 1 "beta"; entry 2 "gamma"] 3
              {| documents := ["beta"; "alpha"];
                 metadatas := [{| chunk_index := 1 |}; {| chunk_index := 0 |}];
                 distances := [0%float; 1%float] |})
    as (context_data & Hrun & Hlen & _ & Hitems);
    [reflexivity|reflexivity|lia|reflexivity|reflexivity|reflexivity
    |simpl; lia|].
  exists context_data. split; [exact Hrun|]. split; [exact Hlen|].
  split.
  - exact (Hitems 0%nat "beta" {| chunk_index := 1 |} 0%float
             eq_refl eq_refl eq_refl).
  - exact (Hitems 1%nat "alpha" {| chunk_index := 0 |} 1%float
             eq_refl eq_refl eq_refl).
Defined.

(** [retrieve_context_absent_or_empty] on an identifier that was never
    indexed and on the empty collection. *)
Lemma retrieve_context_absent_or_empty_witness :
  retrieve_context (H:=example_store) "beta" "doc-9" 5 = Ok []
  /\ retrieve_context (H:=example_store) "beta" "doc-2" 5 = Ok [].
Proof.
  split.
  - apply (retrieve_context_absent_or_empty (H:=example_store)).
    left. eexists. reflexivity.
  - apply (retrieve_context_absent_or_empty (H:=example_store)).
    right. exists []. split; reflexivity.
Defined.

(** [retrieve_context_total] on a collection that does not open, on one that
    cannot be counted, and on a query that the store refuses
    ([n_results = 0]). *)
Lemma retrieve_context_total_witness :
  retrieve_context (H:=example_store) "beta" "doc-9" 5 = Ok []
  /\ retrieve_context (H:=locked_store) "beta" "doc-1" 5 = Ok []
  /\ retrieve_context (H:=example_store) "beta" "doc-1" 0 = Ok [].
Proof.
  split; [|split].
  - eapply (proj1 (proj2 (retrieve_context_total
                            (H:=example_store) "beta" "doc-9" 5))).
    reflexivity.
  - eapply (proj1 (proj2 (proj2 (retrieve_context_total
                                   (H:=locked_store) "beta" "doc-1" 5))));
      reflexivity.
  - eapply (proj2 (proj2 (proj2 (retrieve_context_total
                                   (H:=example_store) "beta" "doc-1" 0)))
              [entry 0 "alpha"; entry 1 "beta"; entry 2 "gamma"] 3);
      reflexivity.
Defined.

(** [generation_failure_in_band] on a model that is out of quota. *)
Lemma generation_failure_in_band_witness :
  let model := failing_model "429 quota exceeded" in
  let item :=
    {| content := "alpha";
       metadata := {| chunk_index := 0 |};
       similarity_score := 1%float |} in
  let sourced_item := sourced "doc-1" 0 "alpha" {| chunk_index := 0 |} 0%float in
  (generate_rag_response (H:=model) [item] "What is alpha?" []).1
  = Ok "Error: The AI service failed to generate a response: 429 quota exceeded"
  /\ (generate_rag_response_with_sources (H:=model)
        [sourced_item] "What is alpha?" [("doc-1", [sourced_item])] []).1
     = Ok "Error generating response: 429 quota exceeded".
Proof.
  intros model item sourced_item. split.
  - rewrite (proj1 (generation_failure_in_band (H:=model) "What is alpha?" []
                      (Exception "429 quota exceeded")) [item]);
      [reflexivity|discriminate|reflexivity].
  - rewrite (proj2 (generation_failure_in_band (H:=model) "What is alpha?" []
                      (Exception "429 quota exceeded"))
               [sourced_item] [("doc-1", [sourced_item])]);
      reflexivity.
Defined.

(** [contextual_qa_multiple_answer_only] on a question about [doc-1]. *)
Lemma contextual_qa_multiple_answer_only_witness :
  let data :=
    {| document_ids := Some ["doc-1"; "doc-9"]; question := Some "alpha" |} in
  exists answer calls',
    contextual_qa_multiple (H:=example_store)
      (H0:=constant_model "Alpha comes first.") data []
    = (Ok [("answer", JStr answer)], calls').
Proof.
  intros data.
  destruct (contextual_qa_multiple_answer_only (H:=example_store)
              (H0:=constant_model "Alpha comes first.")
              data ["doc-1"; "doc-9"] "alpha" [])
    as (answer & calls' & _ & Hbody & _);
    [reflexivity|reflexivity|discriminate|discriminate
    |vm_compute; discriminate|].
  exists answer, calls'. exact Hbody.
Defined.

(** [generate_document_summary_unknown_style] on the style [haiku]. *)
Lemma generate_document_summary_unknown_style_witness :
  summary_prompt ["First chunk."; "Second chunk."] "haiku"
  = overview_prompt ("First chunk." +:+ LF +:+ "Second chunk.").
Proof.
  apply (generate_document_summary_unknown_style
           (H:=constant_model "A summary.") "doc-1"
           ["First chunk."; "Second chunk."] "haiku" []).
  intros Hin. repeat (apply elem_of_cons in Hin as [Hin|Hin]; [discriminate|]).
  by apply elem_of_nil in Hin.
Defined.

(** * Further properties of the code *)

(** ** Parsing *)

Lemma append_nil_r s : s +:+ EmptyString = s.
Proof. induction s as [|c s IH]; [done|]. by rewrite PyStrFacts.append_cons, IH. Qed.

Lemma join_empty_cons b blocks :
  join EmptyString (b :: blocks) = b +:+ join EmptyString blocks.
Proof. destruct blocks; simpl; [by rewrite append_nil_r|done]. Qed.

Lemma parse_pdf_pages_blocks page_num pages text :
  parse_pdf_pages page_num pages text
  = text +:+ join EmptyString (page_blocks page_num pages).
Proof.
  revert page_num text. induction pages as [|page pages IH];
    intros page_num text; simpl; [by rewrite append_nil_r|].
  rewrite IH. destruct (extract_text page) as [page_text|e] eqn:Hpage.
  - rewrite (parse_pdf_page_threshold _ _ page_text) by done.
    destruct (10 <? String.length (join " " (split page_text)))%nat; [|done].
    rewrite join_empty_cons. unfold page_block.
    by rewrite !PyStrFacts.append_assoc.
  - unfold parse_pdf_page. by rewrite Hpage.
Qed.

Lemma strip_page_blocks page_num normalised blocks :
  strip (join EmptyString (page_block page_num normalised :: blocks))
  <> EmptyString.
Proof.
  rewrite join_empty_cons. unfold page_block, strip.
  rewrite !PyStrFacts.append_cons. rewrite PyStrFacts.lstrip_no_space_head by done.
  by apply PyStrFacts.rstrip_nonempty.
Qed.

Lemma page_blocks_shape page_num pages :
  page_blocks page_num pages = []
  \/ exists n normalised blocks,
       page_blocks page_num pages = page_block n normalised :: blocks.
Proof.
  revert page_num. induction pages as [|page pages IH]; intros page_num;
    simpl; [by left|].
  destruct (extract_text page) as [page_text|e]; [|apply IH].
  destruct (10 <? String.length (join " " (split page_text)))%nat; [|apply IH].
  right. by eexists _, _, _.
Qed.

Section ParsingFacts.
Context `{DocLibs}.

(** X1. [parse_pdf] returns a text that is not blank, or raises an
    [HTTPException] of status 500: it never returns an empty text and never
    fails with another status. *)
Theorem parse_pdf_text_or_500 (file_data : bytes) :
  (exists text, parse_pdf file_data = Ok text /\ strip text <> EmptyString)
  \/ (exists detail, parse_pdf file_data = Raise (HTTPException 500 detail)).
Proof.
  unfold parse_pdf. destruct (PdfReader file_data) as [pages|e]; simpl;
    [|right; by eexists].
  destruct (truthy (strip (parse_pdf_pages 0 pages EmptyString))) eqn:Htext;
    simpl; [|right; by eexists].
  left. eexists. split; [done|]. intros Hblank. by rewrite Hblank in Htext.
Qed.

(** X2. When the reader opens the PDF, [parse_pdf] returns the blocks
    [Page <n>: <normalised text>] of the pages whose text can be extracted
    and has more than 10 characters once normalised, in page order and
    numbered by their position in the document; when there is no such page
    it raises the 500 of an empty PDF. *)
Theorem parse_pdf_blocks (file_data : bytes) (pages : list Page) :
  PdfReader file_data = Ok pages ->
  (page_blocks 0 pages = []
   /\ parse_pdf file_data
      = Raise (HTTPException 500
                 "PDF Parsing Error: 500: PDF appears to be empty or contains no extractable text"))
  \/ (page_blocks 0 pages <> []
      /\ parse_pdf file_data = Ok (join EmptyString (page_blocks 0 pages))).
Proof.
  intros Hread. unfold parse_pdf. rewrite Hread. simpl.
  rewrite parse_pdf_pages_blocks.
  change (EmptyString +:+ ?s) with s.
  destruct (page_blocks_shape 0 pages) as [->|(n & normalised & blocks & ->)].
  - by left.
  - right. split; [done|].
    pose proof (strip_page_blocks n normalised blocks) as Hstrip.
    by destruct (strip (join EmptyString (page_block n normalised :: blocks))).
Qed.

Lemma join_blank_paragraphs paragraphs :
  Forall (fun text => strip text = EmptyString) paragraphs ->
  join LF (filter (fun text => truthy (strip text) = true) paragraphs)
  = EmptyString.
Proof.
  intros Hblank. replace (filter _ paragraphs) with (@nil string); [done|].
  symmetry. induction Hblank as [|text paragraphs Htext _ IH]; [done|].
  rewrite filter_cons_False; [done|]. by rewrite Htext.
Qed.

End ParsingFacts.

Section UploadFacts.
Context `{DocLibs} `{VectorStore}.

(** X3. For a [.docx] upload, a document that the DOCX reader cannot open is
    answered with 500 and the reader's message, and a document all of whose
    paragraphs are blank is answered with 422. *)
Theorem index_document_docx_errors (file : UploadFile) :
  file_extension file = ".docx" ->
  (forall e,
     DocxDocument (file_data file) = Raise e ->
     index_document file
     = Raise (HTTPException 500 ("DOCX Parsing Error: " +:+ exn_str e)))
  /\ (forall paragraphs,
        DocxDocument (file_data file) = Ok paragraphs ->
        Forall (fun text => strip text = EmptyString) paragraphs ->
        index_document file
        = Raise (HTTPException 422 "Could not extract any meaningful text.")).
Proof.
  intros Hext. unfold index_document, parse_upload. rewrite Hext. simpl.
  unfold parse_docx. split.
  - by intros e ->.
  - intros paragraphs -> Hblank. simpl. by rewrite join_blank_paragraphs.
Qed.

(** X4. When [index_document] answers with a body, the text it parsed is not
    blank, its chunks were added to the collection named by the new
    identifier, and the body reports that identifier, the file name and the
    number of chunks added. *)
Theorem index_document_success (file : UploadFile) (response : body) :
  index_document file = Ok response ->
  exists raw_text collection,
    parse_upload file = Ok raw_text
    /\ strip raw_text <> EmptyString
    /\ get_or_create_collection uuid4 = Ok collection
    /\ coll_add collection (split_text raw_text)
         ((fun i : nat => {| chunk_index := Z.of_nat i |})
            <$> seq 0 (length (split_text raw_text)))
         ((fun i : nat => "chunk_" +:+ pretty i)
            <$> seq 0 (length (split_text raw_text)))
       = Ok ()
    /\ response
       = [("status", JStr "success");
          ("document_id", JStr uuid4);
          ("filename", JStr (filename file));
          ("total_chunks_indexed",
           JInt (Z.of_nat (length (split_text raw_text))))].
Proof.
  unfold index_document. destruct (parse_upload file) as [raw_text|e];
    simpl; [|done].
  destruct (truthy (strip raw_text)) eqn:Htext; simpl; [|done].
  unfold insert_chunks_to_chroma.
  destruct (get_or_create_collection uuid4) as [collection|e] eqn:Hget;
    simpl; [|done].
  destruct (coll_add collection _ _ _) as [[]|e] eqn:Hadd; simpl; [|done].
  intros [= <-]. exists raw_text, collection. repeat split; try done.
  intros Hblank. by rewrite Hblank in Htext.
Qed.

(** X5. [insert_chunks_to_chroma] adds the chunks under pairwise distinct
    identifiers [chunk_0], [chunk_1], ..., one per chunk, each with the
    metadata that records its position; any exception of the store becomes
    an [HTTPException] of status 500. *)
Theorem insert_chunks_to_chroma_ids (chunks : list string)
    (document_id : string) :
  exists ids metadatas,
    NoDup ids
    /\ (forall i chunk,
          chunks !! i = Some chunk ->
          ids !! i = Some ("chunk_" +:+ pretty i)
          /\ metadatas !! i = Some {| chunk_index := Z.of_nat i |})
    /\ length ids = length chunks
    /\ length metadatas = length chunks
    /\ insert_chunks_to_chroma chunks document_id
       = match get_or_create_collection document_id with
         | Ok collection =>
             match coll_add collection chunks metadatas ids with
             | Ok _ => Ok document_id
             | Raise e =>
                 Raise (HTTPException 500
                          ("Database error during indexing: " +:+ exn_str e))
             end
         | Raise e =>
             Raise (HTTPException 500
                      ("Database error during indexing: " +:+ exn_str e))
         end.
Proof.
  exists ((fun i : nat => "chunk_" +:+ pretty i) <$> seq 0 (length chunks)),
    ((fun i : nat => {| chunk_index := Z.of_nat i |})
       <$> seq 0 (length chunks)).
  split; [|split; [|split; [|split]]]; last first.
  - unfold insert_chunks_to_chroma.
    destruct (get_or_create_collection document_id) as [collection|e];
      simpl; [|done].
    by destruct (coll_add collection _ _ _).
  - by rewrite length_fmap, length_seq.
  - by rewrite length_fmap, length_seq.
  - intros i chunk Hi. apply lookup_lt_Some in Hi.
    rewrite !list_lookup_fmap. rewrite (lookup_seq_lt 0 _ i) by done. done.
  - apply NoDup_fmap_2; [|apply NoDup_seq].
    intros i j Hij. by apply (inj (String.app "chunk_")), (inj pretty) in Hij.
Qed.

End UploadFacts.

(** ** Retrieval *)

Lemma StronglySorted_app_elem {A : Type} (R : A -> A -> Prop) l1 l2 a b :
  StronglySorted R (l1 ++ l2) -> a ∈ l1 -> b ∈ l2 -> R a b.
Proof.
  induction l1 as [|x l1 IH]; simpl; intros Hs Ha Hb.
  - by apply elem_of_nil in Ha.
  - apply StronglySorted_inv in Hs as [Hs Hx].
    apply elem_of_cons in Ha as [->|Ha]; [|by apply IH].
    rewrite Forall_forall in Hx. apply Hx, elem_of_app. by right.
Qed.

Section MoreRetrievalFacts.
Context `{VectorStore}.

Lemma retrieve_context_loop_length results docs :
  forall i context_data found,
    retrieve_context_loop results i docs context_data = Ok found ->
    length found = (length context_data + length docs)%nat.
Proof.
  induction docs as [|content rest IH]; intros i context_data found; simpl.
  - intros [= <-]. lia.
  - destruct (index (distances results) i) as [distance|e]; simpl; [|done].
    destruct (index (metadatas results) i) as [metadata|e]; simpl; [|done].
    intros Hrun. apply IH in Hrun. rewrite length_app in Hrun. simpl in Hrun.
    lia.
Qed.

(** X6. [retrieve_context] returns all the results of the query or none of
    them: when the lists the store answers with do not match, the whole
    result is dropped, and a part of it is never returned. *)
Theorem retrieve_context_all_or_nothing (query document_id : string) (k : Z)
    (collection : collection) (n : Z) (results : QueryResult) :
  get_collection document_id = Ok collection ->
  coll_count collection = Ok n ->
  n <> 0 ->
  coll_query collection query (Z.min k n) = Ok results ->
  retrieve_context query document_id k = Ok []
  \/ exists context_data,
       retrieve_context query document_id k = Ok context_data
       /\ length context_data = length (documents results).
Proof.
  intros Hget Hcount Hne Hquery. unfold retrieve_context.
  rewrite Hget. simpl. rewrite Hcount. simpl.
  destruct (Z.eqb_spec n 0) as [|_]; [done|]. simpl. rewrite Hquery. simpl.
  destruct (retrieve_context_loop results 0 (documents results) [])
    as [found|e] eqn:Hrun; simpl; [|by left].
  right. exists found. split; [done|].
  by apply retrieve_context_loop_length in Hrun.
Qed.

Lemma search_document_skipped query k_per_doc doc_id all_contexts :
  (exists e, get_collection doc_id = Raise e)
  \/ (exists collection e,
        get_collection doc_id = Ok collection
        /\ coll_query collection query k_per_doc = Raise e) ->
  search_document query k_per_doc doc_id all_contexts = all_contexts.
Proof.
  unfold search_document.
  intros [[e ->]|(collection & e & -> & Hquery)]; simpl; [done|].
  by rewrite Hquery.
Qed.

(** X7. A document whose collection cannot be opened or queried is skipped:
    the result of [retrieve_context_multiple_docs] is the one the other
    documents give, and the failure does not stop the retrieval. *)
Theorem retrieve_context_multiple_docs_skips (query : string)
    (before after : list string) (doc_id : string) (k_per_doc : Z) :
  (exists e, get_collection doc_id = Raise e)
  \/ (exists collection e,
        get_collection doc_id = Ok collection
        /\ coll_query collection query k_per_doc = Raise e) ->
  retrieve_context_multiple_docs query (before ++ doc_id :: after) k_per_doc
  = retrieve_context_multiple_docs query (before ++ after) k_per_doc.
Proof.
  intros Hfail. unfold retrieve_context_multiple_docs.
  rewrite !foldl_app. simpl. by rewrite search_document_skipped.
Qed.

(** X8. [retrieve_context_multiple_docs] returns the best of the accepted
    contexts: together with the contexts it leaves out it is a rearrangement
    of all the accepted contexts, it leaves out nothing when 10 or fewer
    were accepted, and no context left out has a higher similarity score
    than a context returned. *)
Theorem retrieve_context_multiple_docs_best (query : string)
    (document_ids : list string) (k_per_doc : Z) :
  exists left_out,
    accepted_contexts query document_ids k_per_doc
    ≡ₚ retrieve_context_multiple_docs query document_ids k_per_doc ++ left_out
    /\ length left_out
       = (length (accepted_contexts query document_ids k_per_doc) - 10)%nat
    /\ forall returned dropped,
         returned ∈ retrieve_context_multiple_docs query document_ids k_per_doc ->
         dropped ∈ left_out ->
         (sc_similarity_score dropped <=? sc_similarity_score returned)%float
         = true.
Proof.
  unfold retrieve_context_multiple_docs.
  fold (accepted_contexts query document_ids k_per_doc).
  set (accepted := accepted_contexts query document_ids k_per_doc).
  exists (drop 10 (sort_reverse sc_similarity_score accepted)).
  split; [|split].
  - by rewrite take_drop, sort_reverse_perm.
  - rewrite length_drop. by rewrite sort_reverse_perm.
  - assert (StronglySorted (key_ge sc_similarity_score)
              (sort_reverse sc_similarity_score accepted)) as Hsorted.
    { apply sort_reverse_sorted.
      eapply Forall_impl; [by apply all_contexts_retrieved|].
      apply retrieved_from_not_nan. }
    rewrite <- (take_drop 10 (sort_reverse _ accepted)) in Hsorted.
    intros returned dropped Hr Hd.
    by apply (StronglySorted_app_elem _ _ _ _ _ Hsorted).
Qed.

End MoreRetrievalFacts.

(** ** Prompts *)

Lemma occurs_in_refl s : occurs_in s s.
Proof. exists EmptyString, EmptyString. by rewrite append_nil_r. Qed.

Lemma occurs_in_app_l part s t : occurs_in part s -> occurs_in part (s +:+ t).
Proof.
  intros (before & after & ->). exists before, (after +:+ t).
  by rewrite !PyStrFacts.append_assoc.
Qed.

Lemma occurs_in_app_r part s t : occurs_in part t -> occurs_in part (s +:+ t).
Proof.
  intros (before & after & ->). exists (s +:+ before), after.
  by rewrite !PyStrFacts.append_assoc.
Qed.

Lemma occurs_in_join sep part parts :
  part ∈ parts -> occurs_in part (join sep parts).
Proof.
  induction parts as [|p parts IH]; intros Hin; [by apply elem_of_nil in Hin|].
  apply elem_of_cons in Hin as [->|Hin].
  - destruct parts; simpl; [apply occurs_in_refl|].
    apply occurs_in_app_l, occurs_in_refl.
  - destruct parts as [|p' parts]; [by apply elem_of_nil in Hin|].
    change (join sep (p :: p' :: parts))
      with (p +:+ sep +:+ join sep (p' :: parts)).
    by apply occurs_in_app_r, occurs_in_app_r, IH.
Qed.

Lemma sources_text_grows part i contexts context_text :
  occurs_in part context_text ->
  occurs_in part (sources_text i contexts context_text).
Proof.
  revert i context_text. induction contexts as [|ctx contexts IH];
    intros i context_text Hin; simpl; [done|].
  by apply IH, occurs_in_app_l.
Qed.

Lemma sources_text_content i contexts context_text j ctx :
  contexts !! j = Some ctx ->
  occurs_in ("[Source " +:+ pretty (i + j + 1)%nat +:+ "]: " +:+ sc_content ctx)
            (sources_text i contexts context_text).
Proof.
  revert i context_text j. induction contexts as [|c contexts IH];
    intros i context_text j Hj; [done|]. destruct j as [|j]; simpl in *.
  - injection Hj as ->. apply sources_text_grows.
    replace (i + 0 + 1)%nat with (i + 1)%nat by lia.
    apply occurs_in_app_r.
    exists EmptyString, (LF +:+ LF). by rewrite !PyStrFacts.append_assoc.
  - replace (i + S j + 1)%nat with (S i + j + 1)%nat by lia. by apply IH.
Qed.

Lemma documents_text_grows part contexts_by_doc context_text :
  occurs_in part context_text ->
  occurs_in part (documents_text contexts_by_doc context_text).
Proof.
  revert context_text. induction contexts_by_doc as [|[doc_id contexts] rest IH];
    intros context_text Hin; simpl; [done|].
  by apply IH, sources_text_grows, occurs_in_app_l.
Qed.

Lemma documents_text_content contexts_by_doc context_text doc_id contexts j ctx :
  (doc_id, contexts) ∈ contexts_by_doc ->
  contexts !! j = Some ctx ->
  occurs_in ("--- DOCUMENT: " +:+ doc_id +:+ " ---")
            (documents_text contexts_by_doc context_text)
  /\ occurs_in ("[Source " +:+ pretty (j + 1)%nat +:+ "]: " +:+ sc_content ctx)
               (documents_text contexts_by_doc context_text).
Proof.
  revert context_text. induction contexts_by_doc as [|[d cs] rest IH];
    intros context_text Hin Hj; [by apply elem_of_nil in Hin|].
  apply elem_of_cons in Hin as [[= <- <-]|Hin]; simpl; [|by apply IH].
  split; apply documents_text_grows.
  - apply sources_text_grows, occurs_in_app_r, occurs_in_app_r.
    exists EmptyString, LF. by rewrite !PyStrFacts.append_assoc.
  - by apply (sources_text_content 0).
Qed.

(** ** Grouping by document *)

Lemma append_context_new doc_id context contexts_by_doc :
  doc_id ∉ contexts_by_doc.*1 ->
  append_context doc_id context contexts_by_doc
  = contexts_by_doc ++ [(doc_id, [context])].
Proof.
  induction contexts_by_doc as [|[d cs] rest IH]; simpl; [done|].
  rewrite not_elem_of_cons. intros [Hne Hrest].
  destruct (String.eqb_spec d doc_id) as [->|_]; [done|]. by rewrite IH.
Qed.

Lemma append_context_old doc_id context contexts_by_doc :
  doc_id ∈ contexts_by_doc.*1 ->
  exists before contexts after,
    contexts_by_doc = before ++ (doc_id, contexts) :: after
    /\ append_context doc_id context contexts_by_doc
       = before ++ (doc_id, contexts ++ [context]) :: after.
Proof.
  induction contexts_by_doc as [|[d cs] rest IH]; simpl;
    [intros Hin; by apply elem_of_nil in Hin|].
  destruct (String.eqb_spec d doc_id) as [->|Hne].
  - intros _. by exists [], cs, rest.
  - rewrite elem_of_cons. intros [Heq|Hin]; [done|].
    destruct (IH Hin) as (before & contexts & after & -> & ->).
    by exists ((d, cs) :: before), contexts, after.
Qed.

Lemma grouped_step context_data contexts_by_doc context :
  grouped context_data contexts_by_doc ->
  grouped (context_data ++ [context])
          (append_context (sc_document_id context) context contexts_by_doc).
Proof.
  intros (Hnodup & Hgroups & Hkeys).
  destruct (decide (sc_document_id context ∈ contexts_by_doc.*1)) as [Hin|Hnew].
  - destruct (append_context_old _ context _ Hin)
      as (before & contexts & after & Heq & ->).
    assert ((before ++ (sc_document_id context, contexts ++ [context]) :: after).*1
            = contexts_by_doc.*1) as Hsame.
    { rewrite Heq. by rewrite !fmap_app, !fmap_cons. }
    split; [by rewrite Hsame|]. split; [|rewrite Hsame].
    + intros doc_id cs Hcs. rewrite filter_app.
      apply elem_of_app in Hcs as [Hcs|Hcs];
        [|apply elem_of_cons in Hcs as [[= -> ->]|Hcs]].
      * assert (doc_id <> sc_document_id context) as Hne.
        { intros ->. rewrite Heq, fmap_app, fmap_cons in Hnodup.
          apply NoDup_app in Hnodup as (_ & Hdisj & _).
          apply (Hdisj (sc_document_id context)).
          - apply list_elem_of_fmap. by exists (sc_document_id context, cs).
          - by left. }
        destruct (Hgroups doc_id cs) as [? ->];
          [rewrite Heq; apply elem_of_app; by left|]. split; [done|].
        rewrite (filter_cons_False _ context) by done.
        by rewrite filter_nil, app_nil_r.
      * destruct (Hgroups (sc_document_id context) contexts) as [? Hfilter];
          [rewrite Heq; apply elem_of_app; right; by left|].
        split; [by destruct contexts|].
        rewrite (filter_cons_True _ context) by done.
        by rewrite filter_nil, <- Hfilter.
      * assert (doc_id <> sc_document_id context) as Hne.
        { intros ->. rewrite Heq, fmap_app, fmap_cons in Hnodup.
          apply NoDup_app in Hnodup as (_ & _ & Hnd).
          apply NoDup_cons in Hnd as [Hnotin _]. apply Hnotin.
          apply list_elem_of_fmap. by exists (sc_document_id context, cs). }
        destruct (Hgroups doc_id cs) as [? ->];
          [rewrite Heq; apply elem_of_app; right; by right|]. split; [done|].
        rewrite (filter_cons_False _ context) by done.
        by rewrite filter_nil, app_nil_r.
    + intros c Hc. apply elem_of_app in Hc as [Hc|Hc]; [by apply Hkeys|].
      apply list_elem_of_singleton in Hc as ->. done.
  - rewrite append_context_new by done. split; [|split].
    + rewrite fmap_app. apply NoDup_app. split; [done|]. split.
      * intros d Hd Hd'. apply list_elem_of_singleton in Hd'. by subst.
      * apply NoDup_singleton.
    + intros doc_id cs Hcs. rewrite filter_app.
      apply elem_of_app in Hcs as [Hcs|Hcs].
      * assert (doc_id <> sc_document_id context) as Hne.
        { intros ->. apply Hnew, list_elem_of_fmap.
          by exists (sc_document_id context, cs). }
        destruct (Hgroups doc_id cs Hcs) as [? ->]. split; [done|].
        rewrite (filter_cons_False _ context) by done.
        by rewrite filter_nil, app_nil_r.
      * apply list_elem_of_singleton in Hcs as [= -> ->]. split; [done|].
        rewrite (filter_cons_True _ context) by done. rewrite filter_nil.
        destruct (filter _ context_data) as [|c cs'] eqn:Hfilter; [done|].
        assert (c ∈ filter (fun c => sc_document_id c = sc_document_id context)
                      context_data) as Hc by (rewrite Hfilter; by left).
        apply list_elem_of_filter in Hc as [Hid Hc].
        exfalso. apply Hnew. rewrite <- Hid. by apply Hkeys.
    + intros c Hc. rewrite fmap_app. apply elem_of_app.
      apply elem_of_app in Hc as [Hc|Hc]; [left; by apply Hkeys|].
      apply list_elem_of_singleton in Hc as ->. right. by left.
Qed.

Lemma group_by_document_grouped context_data :
  grouped context_data (group_by_document context_data).
Proof.
  unfold group_by_document.
  induction context_data as [|context context_data IH] using rev_ind.
  - split; [constructor|]. split; [intros ? ? Hin|intros ? Hin];
      by apply elem_of_nil in Hin.
  - rewrite foldl_app. simpl. by apply grouped_step.
Qed.

(** X9. [group_by_document] makes one group per document identifier, keyed
    by distinct identifiers; the group of an identifier holds, in their
    order, exactly the contexts of that document, so that no group is empty
    and every context is in the group of its document. *)
Theorem group_by_document_spec (context_data : list SourcedContext) :
  NoDup (group_by_document context_data).*1
  /\ (forall doc_id contexts,
        (doc_id, contexts) ∈ group_by_document context_data ->
        contexts <> []
        /\ contexts
           = filter (fun c => sc_document_id c = doc_id) context_data)
  /\ (forall c,
        c ∈ context_data ->
        exists contexts,
          (sc_document_id c, contexts) ∈ group_by_document context_data
          /\ c ∈ contexts).
Proof.
  destruct (group_by_document_grouped context_data)
    as (Hnodup & Hgroups & Hkeys).
  split; [done|]. split; [done|]. intros c Hc.
  pose proof (Hkeys c Hc) as Hkey. apply list_elem_of_fmap in Hkey.
  destruct Hkey as ([d contexts] & Hd & Hin). simpl in Hd. subst d.
  exists contexts. split; [done|].
  destruct (Hgroups _ _ Hin) as [_ ->]. apply list_elem_of_filter. by split.
Qed.

Section PromptFacts.
Context `{GenerativeModel}.

(** X10. For a context that is not empty, [generate_rag_response] calls the
    model once, with a prompt in which the question and the content of
    every retrieved passage occur. *)
Theorem generate_rag_response_prompt (context : list ContextItem)
    (user_question : string) (calls : list string) :
  context <> [] ->
  exists prompt,
    (generate_rag_response context user_question calls).2 = calls ++ [prompt]
    /\ occurs_in user_question prompt
    /\ forall item, item ∈ context -> occurs_in (content item) prompt.
Proof.
  intros Hne. destruct context as [|c context]; [done|].
  eexists. split; [reflexivity|]. unfold rag_prompt. split.
  - do 3 apply occurs_in_app_r. apply occurs_in_app_l, occurs_in_refl.
  - intros item Hitem. apply occurs_in_app_r, occurs_in_app_l.
    apply occurs_in_join, list_elem_of_fmap. by exists item.
Qed.

(** X11. [generate_rag_response_with_sources], given the contexts grouped
    by [group_by_document], calls the model once with a prompt in which
    occur the question, the header of the document of every context and a
    numbered [Source] line with the content of every context. *)
Theorem generate_rag_response_with_sources_prompt
    (context : list SourcedContext) (user_question : string)
    (calls : list string) :
  exists prompt,
    (generate_rag_response_with_sources
       context user_question (group_by_document context) calls).2
    = calls ++ [prompt]
    /\ occurs_in user_question prompt
    /\ forall c,
         c ∈ context ->
         occurs_in ("--- DOCUMENT: " +:+ sc_document_id c +:+ " ---") prompt
         /\ exists n : nat,
              occurs_in ("[Source " +:+ pretty n +:+ "]: " +:+ sc_content c)
                        prompt.
Proof.
  eexists. split; [reflexivity|]. unfold sources_prompt. split.
  - do 3 apply occurs_in_app_r. apply occurs_in_app_l, occurs_in_refl.
  - intros c Hc.
    destruct (group_by_document_grouped context) as (_ & Hgroups & Hkeys).
    pose proof (Hkeys c Hc) as Hkey. apply list_elem_of_fmap in Hkey.
    destruct Hkey as ([d contexts] & Hd & Hin). simpl in Hd. subst d.
    assert (c ∈ contexts) as Hmem.
    { destruct (Hgroups _ _ Hin) as [_ ->]. apply list_elem_of_filter.
      by split. }
    apply list_elem_of_lookup in Hmem as [j Hj].
    destruct (documents_text_content _ EmptyString _ _ j c Hin Hj)
      as [Hdoc Hsrc].
    split; [|exists (j + 1)%nat];
      by apply occurs_in_app_r, occurs_in_app_l.
Qed.

End PromptFacts.

(** ** Question answering endpoints *)

Section QaFacts.
Context `{VectorStore} `{GenerativeModel}.


(** On a list of strings the handler over values is the handler above. *)
Lemma contextual_qa_multiple_object_list (ids : option (list string))
    (user_question : option string) (calls : list string) :
  contextual_qa_multiple_object
    {| object_document_ids := IdsList <$> ids;
       object_question := user_question |} calls
  = contextual_qa_multiple
      {| document_ids := ids; question := user_question |} calls.
Proof.
  unfold contextual_qa_multiple_object, contextual_qa_multiple. simpl.
  destruct ids as [ids|]; simpl; [|done].
  destruct (bool_decide (ids <> [])); simpl; [|done].
  destruct (truthy (default EmptyString user_question)); simpl; [|done].
  by destruct (retrieve_context_multiple_docs _ ids 3).
Qed.


End QaFacts.

(** ** Summaries of indexed documents *)

Section SummaryFacts.
Context `{GenerativeModel}.

Lemma generate_document_summary_returns document_id chunks summary_type calls :
  exists summary,
    generate_document_summary document_id chunks summary_type calls
    = (Ok summary, calls ++ [summary_prompt chunks summary_type]).
Proof.
  unfold generate_document_summary, call_model.
  destruct (generate_content calls _); simpl; by eexists.
Qed.

Lemma generate_document_summary_text document_id chunks summary_type calls :
  generate_document_summary document_id chunks summary_type calls
  = (Ok (match generate_content calls (summary_prompt chunks summary_type) with
         | Ok text => text
         | Raise _ =>
             "Unable to generate " +:+ summary_type
             +:+ " summary at this time."
         end),
     calls ++ [summary_prompt chunks summary_type]).
Proof.
  unfold generate_document_summary, call_model.
  by destruct (generate_content calls _).
Qed.

Lemma summary_prompt_key_points chunks :
  summary_prompt chunks "key_points"
  = key_points_prompt (join LF (take 15 chunks)).
Proof.
  unfold summary_prompt, summary_prompts. cbv zeta.
  rewrite !lookup_insert_ne by done. by rewrite lookup_insert_eq.
Qed.

Lemma summary_prompt_executive chunks :
  summary_prompt chunks "executive"
  = executive_prompt (join LF (take 15 chunks)).
Proof.
  unfold summary_prompt, summary_prompts. cbv zeta.
  rewrite !lookup_insert_ne by done. by rewrite lookup_insert_eq.
Qed.

Lemma summary_prompt_overview chunks :
  summary_prompt chunks "overview"
  = overview_prompt (join LF (take 15 chunks)).
Proof.
  unfold summary_prompt, summary_prompts. cbv zeta.
  rewrite !lookup_insert_ne by done. by rewrite lookup_insert_eq.
Qed.

End SummaryFacts.

Section SummaryEndpointFacts.
Context `{VectorStore} `{!StoreReader} `{GenerativeModel}.

(** X14. [POST /document/{id}/generate-summary] answers 200 with a summary
    after one call of the model, or 500 without a call; it never answers
    404. For a collection without chunks, the 404 raised inside the [try]
    block is caught by its own [except Exception] and answered as a 500
    whose detail quotes the 404. *)
Theorem generate_summary_for_document_outcomes (document_id summary_type : string)
    (calls : list string) :
  ((exists summary prompt,
      generate_summary_for_document document_id summary_type calls
      = (Ok [("document_id", JStr document_id);
             ("ai_summary", JStr summary);
             ("summary_type", JStr summary_type);
             ("status", JStr "success")],
         calls ++ [prompt]))
   \/ (exists cause,
         generate_summary_for_document document_id summary_type calls
         = (Raise (HTTPException 500 ("Error generating summary: " +:+ cause)),
            calls)))
  /\ (forall collection results,
        get_collection document_id = Ok collection ->
        coll_get collection = Ok results ->
        got_documents results = [] ->
        generate_summary_for_document document_id summary_type calls
        = (Raise (HTTPException 500
                    "Error generating summary: 404: Document not found or has no content"),
           calls)).
Proof.
  unfold generate_summary_for_document, try_except_calls. split.
  - destruct (get_collection document_id) as [collection|e]; cbn -[generate_document_summary summary_prompt];
      [|right; by eexists].
    destruct (coll_get collection) as [results|e]; cbn -[generate_document_summary summary_prompt]; [|right; by eexists].
    destruct (got_documents results) as [|chunk chunks]; cbn -[generate_document_summary summary_prompt];
      [right; by eexists|].
    destruct (generate_document_summary_returns
                document_id (chunk :: chunks) summary_type calls)
      as [summary ->]. cbn -[generate_document_summary summary_prompt]. left. by eexists _, _.
  - intros collection results -> Hget Hempty. cbn -[generate_document_summary summary_prompt]. rewrite Hget. cbn -[generate_document_summary summary_prompt].
    by rewrite Hempty.
Qed.

(** X15. For a document that has chunks,
    [POST /document/{id}/generate-comprehensive-summaries] always answers
    200: it calls the model three times, with the overview, the key points
    and the executive prompt over the first 15 chunks, in this order, and
    each summary of the body is the reply of the model to its prompt or,
    when that call raises, the text
    [Unable to generate <style> summary at this time.] *)
Theorem generate_comprehensive_summaries_calls (document_id : string)
    (calls : list string) (collection : collection) (results : GetResult) :
  get_collection document_id = Ok collection ->
  coll_get collection = Ok results ->
  got_documents results <> [] ->
  let context_text := join LF (take 15 (got_documents results)) in
  let overview := overview_prompt context_text in
  let key_points := key_points_prompt context_text in
  let executive := executive_prompt context_text in
  generate_comprehensive_summaries document_id calls
  = (Ok [("document_id", JStr document_id);
         ("summaries",
          JDict
            [("overview",
              JStr (match generate_content calls overview with
                    | Ok text => text
                    | Raise _ =>
                        "Unable to generate overview summary at this time."
                    end));
             ("key_points",
              JStr (match generate_content (calls ++ [overview]) key_points with
                    | Ok text => text
                    | Raise _ =>
                        "Unable to generate key_points summary at this time."
                    end));
             ("executive",
              JStr (match generate_content (calls ++ [overview; key_points])
                            executive with
                    | Ok text => text
                    | Raise _ =>
                        "Unable to generate executive summary at this time."
                    end))]);
         ("status", JStr "success")],
     calls ++ [overview; key_points; executive]).
Proof.
  intros Hopen Hget Hchunks context_text overview key_points executive.
  unfold generate_comprehensive_summaries, try_except_calls.
  rewrite Hopen. cbn -[generate_document_summary summary_prompt].
  rewrite Hget. cbn -[generate_document_summary summary_prompt].
  destruct (got_documents results) as [|chunk chunks] eqn:Hdocs; [done|].
  rewrite !generate_document_summary_text.
  rewrite summary_prompt_overview, summary_prompt_key_points,
    summary_prompt_executive.
  fold context_text. fold overview key_points executive.
  rewrite <- !app_assoc. simpl app.
  by destruct (generate_content calls overview),
    (generate_content (calls ++ [overview]) key_points),
    (generate_content (calls ++ [overview; key_points]) executive).
Qed.

End SummaryEndpointFacts.

Section IndexWithSummaryFacts.
Context `{DocLibs} `{VectorStore} `{GenerativeModel} `{Clock}.

(** X16. [POST /document/index-with-summary] answers with the status
    [POST /document/index] answers with for the same upload. It calls the
    model exactly when the parsed text is not blank, once, with the
    overview prompt over the chunks, and before the chunks are stored: the
    call is made also when storing then fails. *)
Theorem index_document_with_summary_status (file : UploadFile)
    (calls : list string) :
  http_status (index_document_with_summary file calls).1
  = http_status (index_document file)
  /\ (index_document_with_summary file calls).2
     = match parse_upload file with
       | Ok raw_text =>
           if truthy (strip raw_text)
           then calls ++ [summary_prompt (split_text raw_text) "overview"]
           else calls
       | Raise _ => calls
       end.
Proof.
  unfold index_document_with_summary, index_document.
  destruct (parse_upload file) as [raw_text|e]; cbn -[generate_document_summary summary_prompt]; [|done].
  destruct (truthy (strip raw_text)); cbn -[generate_document_summary summary_prompt]; [|done].
  destruct (generate_document_summary_returns
              "temp_id" (split_text raw_text) "overview" calls)
    as [summary ->]. cbn -[generate_document_summary summary_prompt]. split; [|done].
  by destruct (insert_chunks_to_chroma (split_text raw_text) uuid4).
Qed.

End IndexWithSummaryFacts.

(** ** Debug endpoints *)

Lemma length_append s t :
  String.length (s +:+ t) = (String.length s + String.length t)%nat.
Proof.
  induction s as [|c s IH]; [done|].
  rewrite PyStrFacts.append_cons. simpl. by rewrite IH.
Qed.

Lemma length_substring_le n m s : (String.length (String.substring n m s) <= m)%nat.
Proof.
  revert n m. induction s as [|c s IH]; intros [|n] [|m]; simpl;
    try lia; try apply IH.
  specialize (IH 0%nat m). lia.
Qed.

Lemma collection_infos_spec `{VectorStore} collections :
  forall collection_info,
    (exists entries,
       Forall2 counted_as collections entries
       /\ collection_infos collections collection_info
          = Ok (collection_info ++ entries))
    \/ (exists before name collection after e,
          collections = before ++ (name, collection) :: after
          /\ Forall (fun named => exists count, coll_count named.2 = Ok count)
                    before
          /\ coll_count collection = Raise e
          /\ collection_infos collections collection_info = Raise e).
Proof.
  induction collections as [|[name collection] rest IH];
    intros collection_info; simpl.
  - left. exists []. split; [constructor|]. by rewrite app_nil_r.
  - destruct (coll_count collection) as [count|e] eqn:Hcount; simpl.
    + destruct (IH (collection_info ++
                      [JDict [("name", JStr name);
                              ("document_count", JInt count)]]))
        as [(entries & Hentries & Hrun)
           |(before & n & c & after & e & -> & Hbefore & Hc & Hrun)].
      * left. eexists (_ :: entries). split.
        -- constructor; [|done]. exists count. by split.
        -- rewrite Hrun. by rewrite <- app_assoc.
      * right. exists ((name, collection) :: before), n, c, after, e.
        split; [done|]. split; [|by split].
        constructor; [|done]. by exists count.
    + right. exists [], name, collection, rest, e. by repeat split.
Qed.

Section DebugFacts.
Context `{VectorStore} `{!StoreReader} `{GenerativeModel}.

(** X17. [GET /debug/search] never reports an error: [retrieve_context]
    raises nothing, so the body always holds the query, the document
    identifier, the retrieved contexts and their number, also for a
    document that does not exist. *)
Theorem debug_search_never_errors (document_id query : string) :
  exists context_data,
    retrieve_context query document_id 5 = Ok context_data
    /\ debug_search document_id query
       = Ok [("query", JStr query);
             ("document_id", JStr document_id);
             ("context_found", JInt (Z.of_nat (length context_data)));
             ("contexts", JList (context_json <$> context_data))].
Proof.
  destruct (retrieve_context_returns query document_id 5)
    as [context_data Hfound].
  exists context_data. split; [done|]. unfold debug_search. by rewrite Hfound.
Qed.

(** X18. [GET /debug/retrieve] never raises. Without a retrieved context it
    answers with the error [No context retrieved] and does not call the
    model. Otherwise it calls the model once with the test prompt: if the
    call raises, the body is the error dictionary with the text of the
    exception, and if not, the body carries the answer and a preview of the
    context of at most 1003 characters. *)
Theorem debug_retrieval_outcomes (document_id query : string)
    (calls : list string) :
  (retrieve_context query document_id 5 = Ok []
   /\ debug_retrieval document_id query calls
      = (Ok [("query", JStr query);
             ("document_id", JStr document_id);
             ("context_found", JInt 0);
             ("error", JStr "No context retrieved")],
         calls))
  \/ exists context_data,
       let prompt :=
         test_prompt query
           (join (LF +:+ "---" +:+ LF) (content <$> context_data)) in
       retrieve_context query document_id 5 = Ok context_data
       /\ context_data <> []
       /\ (debug_retrieval document_id query calls).2 = calls ++ [prompt]
       /\ ((exists e,
              generate_content calls prompt = Raise e
              /\ (debug_retrieval document_id query calls).1
                 = Ok (debug_error e document_id))
           \/ (exists llm_answer context_preview chunks_retrieved,
                 generate_content calls prompt = Ok llm_answer
                 /\ (String.length context_preview <= 1003)%nat
                 /\ length chunks_retrieved = length context_data
                 /\ (debug_retrieval document_id query calls).1
                    = Ok [("query", JStr query);
                          ("document_id", JStr document_id);
                          ("context_found",
                           JInt (Z.of_nat (length context_data)));
                          ("context_preview", JStr context_preview);
                          ("llm_answer", JStr llm_answer);
                          ("chunks_retrieved", JList chunks_retrieved)])).
Proof.
  unfold debug_retrieval, try_except_calls.
  destruct (retrieve_context_returns query document_id 5)
    as [context_data Hfound].
  rewrite Hfound. destruct context_data as [|c context_data]; [by left|].
  right. exists (c :: context_data). cbv zeta.
  set (prompt := test_prompt query _).
  split; [done|]. split; [done|]. unfold call_model.
  destruct (generate_content calls prompt) as [llm_answer|e];
    cbn [fst snd mbind result_bind try_except]; (split; [done|]).
  - right. eexists llm_answer, _, _. split; [done|].
    split; [|split; [|reflexivity]].
    + destruct (Nat.ltb_spec 1000
                  (String.length
                     (join (LF +:+ "---" +:+ LF)
                        (content <$> c :: context_data)))) as [_|Hshort].
      * rewrite length_append.
        pose proof (length_substring_le 0 1000
                      (join (LF +:+ "---" +:+ LF)
                         (content <$> c :: context_data))).
        unfold slice_to. simpl String.length at 2. lia.
      * lia.
    + by rewrite length_fmap.
  - left. by exists e.
Qed.

(** [GET /debug/document] never raises. For a collection that can be
    read it reports the number of all its chunks and shows the first three
    chunks and the first three metadata records at most; otherwise the
    body is the error dictionary with the text of the exception. *)
Theorem debug_document_outcomes (document_id : string) :
  (exists e,
     (collection ← get_collection document_id; coll_get collection) = Raise e
     /\ debug_document document_id = Ok (debug_error e document_id))
  \/ (exists collection results,
        get_collection document_id = Ok collection
        /\ coll_get collection = Ok results
        /\ debug_document document_id
           = Ok [("document_id", JStr document_id);
                 ("total_chunks",
                  JInt (Z.of_nat (length (got_documents results))));
                 ("chunks", JList (JStr <$> take 3 (got_documents results)));
                 ("metadatas",
                  JList (metadata_json <$> take 3 (got_metadatas results)))]).
Proof.
  unfold debug_document.
  destruct (get_collection document_id) as [collection|e] eqn:Hopen; simpl;
    [|left; by exists e].
  destruct (coll_get collection) as [results|e] eqn:Hget; simpl;
    [|left; by exists e].
  right. exists collection, results. split; [done|]. split; [done|].
  by destruct (got_documents results), (got_metadatas results).
Qed.

(** X19. [GET /debug/collections] never raises and has three outcomes. When
    listing the collections raises, the body is the error dictionary with
    the text of that exception. When the collections are listed and every
    one of them can be counted, the body reports their number and, in their
    order, the name and the count of each. When the count of a collection
    raises, after the counts of the collections before it, the body is the
    error dictionary with the text of that exception and no collection is
    listed. *)
Theorem debug_collections_outcomes :
  (exists e,
     list_collections = Raise e
     /\ debug_collections = Ok [("error", JStr (exn_str e))])
  \/ (exists collections collection_info,
        list_collections = Ok collections
        /\ Forall2 (counted_as) collections collection_info
        /\ debug_collections
           = Ok [("total_collections", JInt (Z.of_nat (length collections)));
                 ("collections", JList collection_info)])
  \/ (exists before name collection after e,
        list_collections = Ok (before ++ (name, collection) :: after)
        /\ Forall (fun named => exists count, coll_count named.2 = Ok count)
                  before
        /\ coll_count collection = Raise e
        /\ debug_collections = Ok [("error", JStr (exn_str e))]).
Proof.
  unfold debug_collections.
  destruct list_collections as [collections|e]; simpl;
    [|left; by exists e].
  right.
  destruct (collection_infos_spec collections [])
    as [(entries & Hentries & Hrun)
       |(before & name & collection & after & e & -> & Hbefore & Hcount & Hrun)].
  - left. exists collections, entries. split; [done|]. split; [done|].
    rewrite Hrun. simpl. by rewrite (Forall2_length _ _ _ Hentries).
  - right. exists before, name, collection, after, e.
    split; [done|]. split; [done|]. split; [done|]. by rewrite Hrun.
Qed.

End DebugFacts.

(** ** File names *)

Lemma substring_full p : String.substring 0 (String.length p) p = p.
Proof. induction p as [|c p IH]; simpl; [done|]. by rewrite IH. Qed.

Lemma substring_split n p :
  (n <= String.length p)%nat ->
  String.substring 0 n p +:+ String.substring n (String.length p - n) p = p.
Proof.
  revert n. induction p as [|c p IH]; intros n Hn.
  - destruct n; [done|simpl in Hn; lia].
  - destruct n as [|n].
    + change (String.substring 0 0 (String c p)) with EmptyString.
      rewrite Nat.sub_0_r. apply substring_full.
    + simpl in *. rewrite PyStrFacts.append_cons. f_equal. apply IH. lia.
Qed.

Lemma rfind_from_spec c s :
  forall i found,
    rfind_from c s i found = found
    \/ (i <= rfind_from c s i found < i + Z.of_nat (String.length s)
        /\ String.get (Z.to_nat (rfind_from c s i found - i)) s = Some c).
Proof.
  induction s as [|a s IH]; intros i found; simpl; [by left|].
  destruct (IH (i + 1) (if Ascii.eqb a c then i else found))
    as [Hsame|[Hrange Hget]].
  - rewrite Hsame. destruct (Ascii.eqb_spec a c) as [->|_]; [|by left].
    right. split; [lia|]. by rewrite Z.sub_diag.
  - right. split; [lia|].
    replace (Z.to_nat (rfind_from c s (i + 1)
                         (if Ascii.eqb a c then i else found) - i))
      with (S (Z.to_nat (rfind_from c s (i + 1)
                           (if Ascii.eqb a c then i else found) - (i + 1))))
      by lia.
    done.
Qed.

Lemma substring_from_get n p c :
  String.get n p = Some c ->
  exists rest, String.substring n (String.length p - n) p = String c rest.
Proof.
  revert n. induction p as [|a p IH]; intros [|n] Hget; simpl in *; try done.
  - injection Hget as ->. by eexists.
  - by apply IH.
Qed.

(** X20. [os.path.splitext] cuts a file name in two parts that give the
    name back when put together, and the second part, the extension, is
    empty or begins with a dot; so the extension [index_document] compares
    is empty or begins with a dot as well. *)
Theorem splitext_parts (file : UploadFile) :
  (OsPath.splitext (filename file)).1 +:+ (OsPath.splitext (filename file)).2
  = filename file
  /\ ((OsPath.splitext (filename file)).2 = EmptyString
      \/ exists rest, (OsPath.splitext (filename file)).2 = String "." rest)
  /\ (file_extension file = EmptyString
      \/ exists rest, file_extension file = String "." rest).
Proof.
  assert ((OsPath.splitext (filename file)).1
            +:+ (OsPath.splitext (filename file)).2 = filename file
          /\ ((OsPath.splitext (filename file)).2 = EmptyString
              \/ exists rest,
                   (OsPath.splitext (filename file)).2 = String "." rest))
    as [Hparts Hext].
  { unfold OsPath.splitext. set (p := filename file).
    destruct (rfind_from_spec "/" p 0 (-1)) as [Hsep|[Hsep _]];
      destruct (rfind_from_spec "." p 0 (-1)) as [Hdot|[Hdot Hget]];
      unfold rfind; try rewrite Hdot; try rewrite Hsep;
      try (simpl; split; [apply append_nil_r|by left]).
    - destruct (_ && _); simpl; [|split; [apply append_nil_r|by left]].
      rewrite Z.sub_0_r in Hget. split.
      + apply substring_split. lia.
      + right. by apply substring_from_get.
    - destruct (Z.ltb_spec (rfind_from "/" p 0 (-1)) (-1)) as [|_]; [lia|].
      simpl. split; [apply append_nil_r|by left].
    - destruct (_ && _); simpl; [|split; [apply append_nil_r|by left]].
      rewrite Z.sub_0_r in Hget. split.
      + apply substring_split. lia.
      + right. by apply substring_from_get. }
  split; [done|]. split; [done|]. unfold file_extension.
  destruct Hext as [->|[rest ->]]; [by left|]. right. by eexists.
Qed.

(** ** The further properties on the example store, libraries and models *)

(** [parse_pdf_blocks] on a PDF whose first page is too short. *)
Lemma parse_pdf_blocks_witness :
  let pages := [page_of "p. 1"; page_of "A  page with enough text"] in
  parse_pdf (H:=fixed_libs (Ok pages) (Ok []) (Ok EmptyString)) []
  = Ok ("Page 2:" +:+ LF +:+ "A page with enough text" +:+ LF +:+ LF).
Proof.
  intros pages.
  destruct (parse_pdf_blocks
              (H:=fixed_libs (Ok pages) (Ok []) (Ok EmptyString))
              [] pages eq_refl) as [[Hnone _]|[_ Hblocks]].
  - vm_compute in Hnone. discriminate Hnone.
  - exact Hblocks.
Defined.

(** [index_document_docx_errors] on a DOCX of blank paragraphs. *)
Lemma index_document_docx_errors_witness :
  index_document
    (H:=fixed_libs (Ok []) (Ok [" "; EmptyString]) (Ok EmptyString))
    (H0:=example_store) {| filename := "memo.docx"; file_data := [] |}
  = Raise (HTTPException 422 "Could not extract any meaningful text.").
Proof.
  apply (proj2 (index_document_docx_errors
                  (H:=fixed_libs (Ok []) (Ok [" "; EmptyString])
                        (Ok EmptyString))
                  (H0:=example_store)
                  {| filename := "memo.docx"; file_data := [] |} eq_refl)
           [" "; EmptyString] eq_refl).
  repeat constructor.
Defined.

(** [index_document_success] on a text file of one chunk. *)
Lemma index_document_success_witness :
  exists raw_text,
    parse_upload (H:=fixed_libs (Ok []) (Ok []) (Ok "hello world"))
      {| filename := "notes.txt"; file_data := [] |} = Ok raw_text
    /\ strip raw_text <> EmptyString.
Proof.
  destruct (index_document_success
              (H:=fixed_libs (Ok []) (Ok []) (Ok "hello world"))
              (H0:=example_store)
              {| filename := "notes.txt"; file_data := [] |}
              [("status", JStr "success");
               ("document_id", JStr "7f9c24e8-3b12-4fef-91a0-5d2c6e8b0a41");
               ("filename", JStr "notes.txt");
               ("total_chunks_indexed", JInt 1)]
              eq_refl)
    as (raw_text & collection & Hparse & Htext & _).
  exists raw_text. split; [exact Hparse|exact Htext].
Defined.

(** [retrieve_context_all_or_nothing] on the query [beta] over [doc-1]. *)
Lemma retrieve_context_all_or_nothing_witness :
  retrieve_context (H:=example_store) "beta" "doc-1" 2 = Ok []
  \/ exists context_data,
       retrieve_context (H:=example_store) "beta" "doc-1" 2 = Ok context_data
       /\ length context_data = 2%nat.
Proof.
  apply (retrieve_context_all_or_nothing (H:=example_store) "beta" "doc-1" 2
           [entry 0 "alpha"; entry 1 "beta"; entry 2 "gamma"] 3
           {| documents := ["beta"; "alpha"];
              metadatas := [{| chunk_index := 1 |}; {| chunk_index := 0 |}];
              distances := [0%float; 1%float] |});
    [reflexivity|reflexivity|lia|reflexivity].
Defined.

(** [retrieve_context_multiple_docs_skips] on an identifier that was never
    indexed, between two that were. *)
Lemma retrieve_context_multiple_docs_skips_witness :
  retrieve_context_multiple_docs (H:=example_store) "beta"
    (["doc-1"] ++ "doc-9" :: ["doc-2"]) 3
  = retrieve_context_multiple_docs (H:=example_store) "beta"
      (["doc-1"] ++ ["doc-2"]) 3.
Proof.
  apply (retrieve_context_multiple_docs_skips (H:=example_store)).
  left. eexists. reflexivity.
Defined.

(** [generate_rag_response_prompt] on one passage. *)
Lemma generate_rag_response_prompt_witness :
  let item :=
    {| content := "alpha";
       metadata := {| chunk_index := 0 |};
       similarity_score := 1%float |} in
  exists prompt,
    (generate_rag_response (H:=constant_model "Alpha comes first.")
       [item] "What is alpha?" []).2 = [] ++ [prompt]
    /\ occurs_in "What is alpha?" prompt
    /\ forall passage, passage ∈ [item] -> occurs_in (content passage) prompt.
Proof.
  intros item.
  apply (generate_rag_response_prompt (H:=constant_model "Alpha comes first.")).
  discriminate.
Defined.

(** [generate_summary_for_document_outcomes] on the empty collection
    [doc-2]: a 500 that quotes the 404. *)
Lemma generate_summary_for_document_outcomes_witness :
  generate_summary_for_document (H:=example_store) (H0:=example_reader)
    (H1:=constant_model "A summary.") "doc-2" "overview" []
  = (Raise (HTTPException 500
              "Error generating summary: 404: Document not found or has no content"),
     []).
Proof.
  apply (proj2 (generate_summary_for_document_outcomes
                  (H:=example_store) (H0:=example_reader)
                  (H1:=constant_model "A summary.") "doc-2" "overview" [])
           [] {| got_documents := []; got_metadatas := [] |});
    reflexivity.
Defined.

(** [generate_comprehensive_summaries_calls] on [doc-1] with a model that
    is out of quota: three calls, a 200 and the three fallback texts. *)
Lemma generate_comprehensive_summaries_calls_witness :
  let answer :=
    generate_comprehensive_summaries (H:=example_store) (H0:=example_reader)
      (H1:=failing_model "429 quota exceeded") "doc-1" [] in
  answer.1
  = Ok [("document_id", JStr "doc-1");
        ("summaries",
         JDict
           [("overview",
             JStr "Unable to generate overview summary at this time.");
            ("key_points",
             JStr "Unable to generate key_points summary at this time.");
            ("executive",
             JStr "Unable to generate executive summary at this time.")]);
        ("status", JStr "success")]
  /\ length answer.2 = 3%nat.
Proof.
  intros answer. unfold answer.
  rewrite (generate_comprehensive_summaries_calls
             (H:=example_store) (H0:=example_reader)
             (H1:=failing_model "429 quota exceeded") "doc-1" []
             [entry 0 "alpha"; entry 1 "beta"; entry 2 "gamma"]
             {| got_documents := ["alpha"; "beta"; "gamma"];
                got_metadatas := [{| chunk_index := 0 |};
                                  {| chunk_index := 1 |};
                                  {| chunk_index := 2 |}] |}
             eq_refl eq_refl); [|discriminate].
  split; reflexivity.
Defined.


(** The request [{"document_ids": 5, "question": "alpha"}] passes the guard
    of [contextual_qa_multiple] and fails in the loop over [document_ids]. *)
Example contextual_qa_multiple_object_number :
  contextual_qa_multiple_object (H:=example_store)
    (H0:=constant_model "Alpha comes first.")
    {| object_document_ids := Some (IdsInt 5);
       object_question := Some "alpha" |} []
  = (Raise (Exception "'int' object is not iterable"), []).
Proof. reflexivity. Qed.
